(** * Incremental Reading: the settings manager (ir/settings.py)

    A shallow embedding of [SettingsManager]: the settings document and the
    default schema are Python dicts living in a heap of objects, so that the
    aliasing the code creates ([self.settings = self.defaults], default
    values inserted by reference) is part of the model.  Methods are
    computations in a state-and-exception monad over the manager's
    attributes, the heap and the calls made to the host. *)

From Stdlib Require Import ZArith Floats Ascii String.
From stdpp Require Import gmap strings list fin_maps.

Open Scope string_scope.

(* ===================================================================== *)
(** ** Python values and objects *)
(* ===================================================================== *)

Definition loc := positive.

(** Immutable values are stored inline, mutable containers by reference. *)
Inductive value :=
  | VNone
  | VBool (b : bool)
  | VInt (n : Z)
  | VFloat (f : float)
  | VStr (s : string)
  | VRef (l : loc).

Inductive object :=
  | ODict (d : gmap string value)
  | OList (xs : list value).

(** The exceptions the modelled code can raise. *)
Inductive exn :=
  | JSONDecodeError
  | TypeError
  | KeyError (k : string)
  | AttributeError
  | ValueError.

(** Calls to the host application and its widget toolkit, recorded in the
    order they are made. *)
Inductive event :=
  | AddHook (hook : string)
  | ShowInfo (text : string)
  | ShowWarning (text : string)
  | SetComboBoxItem (comboBox : string) (text : value)
  | ClearMenu (menuName : string)
  | AddMenuItem (menuName : string) (modelName deckName : value)
                (quickKey : value) (keyCombo : string)
  | SetMenuVisibility (menuName : string)
  | ResetZoom.

(** The attributes of a [SettingsManager] instance, the heap they point
    into, and the host calls made so far. *)
Record state := State {
  heap : gmap loc object;
  defaults : option value;
  settings : option value;
  settingsChanged : option bool;
  events : list event
}.

Definition set_heap (h : gmap loc object) (st : state) : state :=
  State h (defaults st) (settings st) (settingsChanged st) (events st).
Definition set_defaults (v : value) (st : state) : state :=
  State (heap st) (Some v) (settings st) (settingsChanged st) (events st).
Definition set_settings (v : value) (st : state) : state :=
  State (heap st) (defaults st) (Some v) (settingsChanged st) (events st).
Definition set_settingsChanged (b : bool) (st : state) : state :=
  State (heap st) (defaults st) (settings st) (Some b) (events st).
Definition add_event (e : event) (st : state) : state :=
  State (heap st) (defaults st) (settings st) (settingsChanged st)
        (events st ++ [e]).

(* ===================================================================== *)
(** ** The monad: state that survives a raised exception *)
(* ===================================================================== *)

Inductive result (A : Type) :=
  | Ok (a : A)
  | Raise (e : exn).
Arguments Ok {A} a.
Arguments Raise {A} e.

Definition M (A : Type) : Type := state → result A * state.

#[export] Instance M_ret : MRet M := λ A a st, (Ok a, st).
#[export] Instance M_bind : MBind M := λ A B f m st,
  match m st with
  | (Ok a, st') => f a st'
  | (Raise e, st') => (Raise e, st')
  end.

Definition raise {A} (e : exn) : M A := λ st, (Raise e, st).
Definition modify (f : state → state) : M unit := λ st, (Ok (), f st).

(** [self.x] raises AttributeError while the attribute is unset. *)
Definition attr {A} (f : state → option A) : M A := λ st,
  match f st with
  | Some a => (Ok a, st)
  | None => (Raise AttributeError, st)
  end.

(** [try: body except ValueError: handler] *)
Definition try_except_ValueError (body handler : M unit) : M unit := λ st,
  match body st with
  | (Raise ValueError, st') => handler st'
  | r => r
  end.

(** [for x in xs: body] *)
Fixpoint for_each {A} (xs : list A) (body : A → M unit) : M unit :=
  match xs with
  | [] => mret ()
  | x :: xs' => body x;; for_each xs' body
  end.

(** [for x in xs: body], where [body] answers [true] when it leaves the
    loop ([break], [return]); the loop answers whether it was left. *)
Fixpoint for_break {A} (xs : list A) (body : A → M bool) : M bool :=
  match xs with
  | [] => mret false
  | x :: xs' => b ← body x; if b : bool then mret true else for_break xs' body
  end.

Definition emit (e : event) : M unit := modify (add_event e).
Definition showInfo (text : string) : M unit := emit (ShowInfo text).
Definition showWarning (text : string) : M unit := emit (ShowWarning text).

(** A new object at an address the heap does not use yet. *)
Definition alloc (o : object) : M value := λ st,
  let l := fresh (dom (heap st)) in
  (Ok (VRef l), set_heap (<[l := o]> (heap st)) st).

Definition deref (h : gmap loc object) (v : value) : option object :=
  match v with
  | VRef l => h !! l
  | _ => None
  end.

(* ===================================================================== *)
(** ** The Python operations the manager uses *)
(* ===================================================================== *)

(** [needle in hay] on str: substring test. *)
Fixpoint is_prefix (p s : string) : bool :=
  match p, s with
  | EmptyString, _ => true
  | String a p', String b s' => bool_decide (a = b) && is_prefix p' s'
  | String _ _, EmptyString => false
  end.

Fixpoint is_substring (p s : string) : bool :=
  is_prefix p s ||
  match s with
  | EmptyString => false
  | String _ s' => is_substring p s'
  end.

Definition is_str (k : string) (v : value) : bool :=
  match v with
  | VStr s => bool_decide (s = k)
  | _ => false
  end.

(** [k in c] for a str [k]: key membership on a dict, element membership
    on a list, substring on a str, TypeError on anything else. *)
Definition py_contains (c : value) (k : string) : M bool := λ st,
  match c with
  | VStr s => (Ok (is_substring k s), st)
  | VRef l =>
      match heap st !! l with
      | Some (ODict d) => (Ok (bool_decide (is_Some (d !! k))), st)
      | Some (OList xs) => (Ok (existsb (is_str k) xs), st)
      | None => (Raise TypeError, st)
      end
  | _ => (Raise TypeError, st)
  end.

(** [c[k] = v] for a str [k]: only a dict accepts it. *)
Definition py_setitem (c : value) (k : string) (v : value) : M unit := λ st,
  match c with
  | VRef l =>
      match heap st !! l with
      | Some (ODict d) => (Ok (), set_heap (<[l := ODict (<[k := v]> d)]> (heap st)) st)
      | _ => (Raise TypeError, st)
      end
  | _ => (Raise TypeError, st)
  end.

(** [c[k]] for a str [k]. *)
Definition py_getitem (c : value) (k : string) : M value := λ st,
  match c with
  | VRef l =>
      match heap st !! l with
      | Some (ODict d) =>
          match d !! k with
          | Some v => (Ok v, st)
          | None => (Raise (KeyError k), st)
          end
      | _ => (Raise TypeError, st)
      end
  | _ => (Raise TypeError, st)
  end.

(** [c.pop(k)] for a str [k]: lists take integer indices only, other
    values have no [pop]. *)
Definition py_pop (c : value) (k : string) : M value := λ st,
  match c with
  | VRef l =>
      match heap st !! l with
      | Some (ODict d) =>
          match d !! k with
          | Some v => (Ok v, set_heap (<[l := ODict (delete k d)]> (heap st)) st)
          | None => (Raise (KeyError k), st)
          end
      | Some (OList _) => (Raise TypeError, st)
      | None => (Raise AttributeError, st)
      end
  | _ => (Raise AttributeError, st)
  end.

(** [c.items()], read off at once.  The loops below never change the size
    of the dict they walk (the one that pops walks a copy), so the
    snapshot is what the live view yields.  A gmap lists its items in its
    own order; Python lists them in insertion order. *)
Definition py_items (c : value) : M (list (string * value)) := λ st,
  match deref (heap st) c with
  | Some (ODict d) => (Ok (map_to_list d), st)
  | _ => (Raise AttributeError, st)
  end.

(** [c.copy().items()]: the items of a shallow copy; a list copies but has
    no [items]. *)
Definition py_copy_items (c : value) : M (list (string * value)) := py_items c.

(** Truth value of [v], as [not v] and [if v] take it. *)
Definition py_truthy (h : gmap loc object) (v : value) : bool :=
  match v with
  | VNone => false
  | VBool b => b
  | VInt n => negb (n =? 0)%Z
  | VFloat f => negb (PrimFloat.eqb f 0%float)
  | VStr s => negb (bool_decide (s = ""))
  | VRef l =>
      match h !! l with
      | Some (ODict d) => negb (bool_decide (d = ∅))
      | Some (OList xs) => negb (bool_decide (xs = []))
      | None => true
      end
  end.

(** [s.lower()], on ASCII text. *)
Definition lower_ascii (a : ascii) : ascii :=
  let n := N_of_ascii a in
  if ((65 <=? n) && (n <=? 90))%N then ascii_of_N (n + 32) else a.

Fixpoint lower (s : string) : string :=
  match s with
  | EmptyString => EmptyString
  | String a s' => String (lower_ascii a) (lower s')
  end.

(** [int(s)] on ASCII text: surrounding whitespace is dropped, one sign
    is allowed, and the digits may be grouped by single underscores. *)
Definition is_space (a : ascii) : bool :=
  let n := N_of_ascii a in
  (((9 <=? n) && (n <=? 13)) || ((28 <=? n) && (n <=? 32)))%N.

Fixpoint lstrip (s : string) : string :=
  match s with
  | String a s' => if is_space a then lstrip s' else s
  | EmptyString => EmptyString
  end.

Definition strip (s : string) : string :=
  String.rev (lstrip (String.rev (lstrip s))).

Definition digit_of (a : ascii) : option Z :=
  let n := Z.of_N (N_of_ascii a) in
  if ((48 <=? n) && (n <=? 57))%Z then Some (n - 48)%Z else None.

Fixpoint digits (s : string) (acc : Z) (after_digit : bool) : option Z :=
  match s with
  | EmptyString => if after_digit then Some acc else None
  | String a s' =>
      if bool_decide (a = "_"%char) then
        if after_digit then digits s' acc false else None
      else
        match digit_of a with
        | Some d => digits s' (10 * acc + d)%Z true
        | None => None
        end
  end.

Definition parse_int (s : string) : option Z :=
  match strip s with
  | String "-" r => Z.opp <$> digits r 0 false
  | String "+" r => digits r 0 false
  | t => digits t 0 false
  end.

Definition py_int (s : string) : M value := λ st,
  match parse_int s with
  | Some n => (Ok (VInt n), st)
  | None => (Raise ValueError, st)
  end.

(** [n / 100.0] for the value of a spin box (an int within the box's
    bounds, which are 5 to 200 here). *)
Definition percent (n : Z) : value :=
  VFloat (PrimFloat.div (PrimFloat.of_uint63 (Uint63.of_Z n)) 100).

(** [d[k]] on a dict held in a local variable. *)
Definition local_getitem (d : gmap string value) (k : string) : M value := λ st,
  match d !! k with
  | Some v => (Ok v, st)
  | None => (Raise (KeyError k), st)
  end.

(** [s += v] on a str [s]. *)
Definition py_str_add (s : string) (v : value) : M string := λ st,
  match v with
  | VStr t => (Ok (s +:+ t), st)
  | _ => (Raise TypeError, st)
  end.

(** [if v] *)
Definition truthy (v : value) : M bool := λ st, (Ok (py_truthy (heap st) v), st).

(* ===================================================================== *)
(** ** JSON documents and [json.load] *)
(* ===================================================================== *)

#[warnings="-register-all"]
Inductive json :=
  | JNull
  | JBool (b : bool)
  | JInt (n : Z)
  | JFloat (f : float)
  | JStr (s : string)
  | JArr (xs : list json)
  | JObj (members : list (string * json)).

(** What [os.path.isfile] and [json.load] find at [self.jsonPath]: no
    file, a file that is not JSON, or a JSON text. *)
Inductive settings_file :=
  | Absent
  | Malformed
  | Parsed (j : json).

(** The values of the elements of an array, in order. *)
Definition json_elements (value_of : json → M value)
  : list json → M (list value) :=
  fix elements xs :=
    match xs with
    | [] => mret []
    | x :: xs' => v ← value_of x; vs ← elements xs'; mret (v :: vs)
    end.

(** The members of an object, a later one replacing an earlier one of
    the same name. *)
Definition json_members (value_of : json → M value)
  : list (string * json) → gmap string value → M (gmap string value) :=
  fix members ms d :=
    match ms with
    | [] => mret d
    | (k, x) :: ms' => v ← value_of x; members ms' (<[k := v]> d)
    end.

(** The Python value [json.load] builds for a JSON text: fresh objects
    throughout. *)
Fixpoint json_value (j : json) : M value :=
  match j with
  | JNull => mret VNone
  | JBool b => mret (VBool b)
  | JInt n => mret (VInt n)
  | JFloat f => mret (VFloat f)
  | JStr s => mret (VStr s)
  | JArr xs => vs ← json_elements json_value xs; alloc (OList vs)
  | JObj ms => d ← json_members json_value ms ∅; alloc (ODict d)
  end.

Definition json_load (f : json) : M value := json_value f.

(* ===================================================================== *)
(** ** SettingsManager *)
(* ===================================================================== *)

Section SettingsManager.

(** [__version__] of [._version] and [IR_GITHUB_URL] of [.about]. *)
Variables (version IR_GITHUB_URL : string).

(** A manager before [__init__] has run. *)
Definition blank : state := State ∅ None None None [].

(** ['IR/{} (+{})'.format(__version__, IR_GITHUB_URL)] *)
Definition userAgent : string :=
  "IR/" +:+ version +:+ " (+" +:+ IR_GITHUB_URL +:+ ")".

(** The default schema of [__init__], its containers standing for the
    objects the dict literal creates. *)
Definition default_items (badTags feedLog quickKeys scroll zoom : value)
  : list (string * value) :=
  [("badTags", badTags);
   ("copyTitle", VBool false);
   ("editExtract", VBool false);
   ("editSource", VBool false);
   ("extractBgColor", VStr "Green");
   ("extractDeck", VNone);
   ("extractKey", VStr "x");
   ("extractMethod", VStr "percent");
   ("extractRandom", VBool true);
   ("extractSchedule", VBool true);
   ("extractTextColor", VStr "White");
   ("extractValue", VInt 30);
   ("feedLog", feedLog);
   ("generalZoom", VInt 1);
   ("highlightBgColor", VStr "Yellow");
   ("highlightKey", VStr "h");
   ("highlightTextColor", VStr "Black");
   ("importDeck", VStr "Default");
   ("laterMethod", VStr "percent");
   ("laterRandom", VBool true);
   ("laterValue", VInt 50);
   ("limitWidth", VBool true);
   ("limitWidthAll", VBool false);
   ("lineScrollFactor", VFloat 0x1.999999999999ap-5);
   ("maxWidth", VInt 600);
   ("modelName", VStr "IR3");
   ("pageScrollFactor", VFloat 0.5);
   ("plainText", VBool false);
   ("quickKeys", quickKeys);
   ("removeKey", VStr "z");
   ("scroll", scroll);
   ("soonMethod", VStr "percent");
   ("soonRandom", VBool true);
   ("soonValue", VInt 10);
   ("sourceField", VStr "Source");
   ("textField", VStr "Text");
   ("titleField", VStr "Title");
   ("undoKey", VStr "u");
   ("userAgent", VStr userAgent);
   ("zoom", zoom);
   ("zoomStep", VFloat 0x1.999999999999ap-4)].

Definition init : M unit :=
  emit (AddHook "unloadProfile");;
  badTags ← alloc (OList [VStr "iframe"; VStr "script"]);
  feedLog ← alloc (ODict ∅);
  quickKeys ← alloc (ODict ∅);
  scroll ← alloc (ODict ∅);
  zoom ← alloc (ODict ∅);
  d ← alloc (ODict (list_to_map
                      (default_items badTags feedLog quickKeys scroll zoom)));
  modify (set_defaults d).

Definition addMissingSettings : M unit :=
  d ← attr defaults;
  items ← py_items d;
  for_each items (λ '(k, v),
    s ← attr settings;
    present ← py_contains s k;
    if present : bool then mret ()
    else
      s ← attr settings;
      py_setitem s k v;;
      modify (set_settingsChanged true)).

Definition required : list string :=
  ["alt"; "bgColor"; "ctrl"; "deckName"; "editExtract"; "editSource";
   "fieldName"; "modelName"; "regularKey"; "shift"; "textColor"].

Definition removeOutdatedQuickKeys : M unit :=
  s ← attr settings;
  quickKeys ← py_getitem s "quickKeys";
  items ← py_copy_items quickKeys;
  for_each items (λ '(keyCombo, quickKey),
    for_break required (λ k,
      present ← py_contains quickKey k;
      if present : bool then mret false
      else
        s ← attr settings;
        quickKeys ← py_getitem s "quickKeys";
        py_pop quickKeys keyCombo;;
        modify (set_settingsChanged true);;
        mret true);;
    mret ()).

Definition notice : string :=
  "Your Incremental Reading settings file has been modified"
  +:+ " for compatibility reasons. Please take a moment to"
  +:+ " reconfigure the add-on to your liking.".

(** [f] is what the file system holds at [self.jsonPath]. *)
Definition loadSettings (f : settings_file) : M value :=
  modify (set_settingsChanged false);;
  match f with
  | Parsed j =>
      v ← json_load j;
      modify (set_settings v);;
      addMissingSettings;;
      removeOutdatedQuickKeys
  | Malformed => raise JSONDecodeError
  | Absent =>
      d ← attr defaults;
      modify (set_settings d)
  end;;
  changed ← attr settingsChanged;
  (if changed : bool then showInfo notice else mret ());;
  attr settings.


(** The menu text is ['Add Card [%s -> %s]' % (modelName, deckName)]; the
    event keeps the two values apart. *)
Definition loadMenuItems : M unit :=
  let menuName := "Read::Quick Keys" in
  emit (ClearMenu menuName);;
  s ← attr settings;
  quickKeys ← py_getitem s "quickKeys";
  items ← py_items quickKeys;
  for_each items (λ '(keyCombo, quickKey),
    modelName ← py_getitem quickKey "modelName";
    deckName ← py_getitem quickKey "deckName";
    emit (AddMenuItem menuName modelName deckName quickKey keyCombo));;
  emit (SetMenuVisibility menuName).

(** What the widgets of the options dialog hold when [dialog.exec_()]
    returns. *)
Record Dialog := {
  zoomStepSpinBox : Z;
  generalZoomSpinBox : Z;
  lineStepSpinBox : Z;
  pageStepSpinBox : Z;
  editExtractButton : bool;
  editSourceCheckBox : bool;
  plainTextCheckBox : bool;
  copyTitleCheckBox : bool;
  extractScheduleCheckBox : bool;
  soonRandomCheckBox : bool;
  laterRandomCheckBox : bool;
  extractRandomCheckBox : bool;
  extractDeckComboBox : string;
  soonValueEditBox : string;
  laterValueEditBox : string;
  extractValueEditBox : string;
  widthEditBox : string;
  soonPercentButton : bool;
  laterPercentButton : bool;
  extractPercentButton : bool;
  limitAllCardsButton : bool;
  limitIrCardsButton : bool
}.

(** [self.settings[k] = v] *)
Definition assign (k : string) (v : value) : M unit :=
  s ← attr settings;
  py_setitem s k v.

Definition warning : string := "Integer value expected. Please try again.".

(** The numeric fields of [showDialog] (the [try] statement). *)
Definition saveNumbers (w : Dialog) : M unit :=
  try_except_ValueError
    (n ← py_int (soonValueEditBox w);
     assign "soonValue" n;;
     n ← py_int (laterValueEditBox w);
     assign "laterValue" n;;
     n ← py_int (extractValueEditBox w);
     assign "extractValue" n;;
     n ← py_int (widthEditBox w);
     assign "maxWidth" n)
    (showWarning warning).

(** [showDialog] from the return of [dialog.exec_()] on: the widgets are
    read back into the settings. *)
Definition showDialog (w : Dialog) : M unit :=
  assign "zoomStep" (percent (zoomStepSpinBox w));;
  assign "generalZoom" (percent (generalZoomSpinBox w));;
  assign "lineScrollFactor" (percent (lineStepSpinBox w));;
  assign "pageScrollFactor" (percent (pageStepSpinBox w));;
  assign "editExtract" (VBool (editExtractButton w));;
  assign "editSource" (VBool (editSourceCheckBox w));;
  assign "plainText" (VBool (plainTextCheckBox w));;
  assign "copyTitle" (VBool (copyTitleCheckBox w));;
  assign "extractSchedule" (VBool (extractScheduleCheckBox w));;
  assign "soonRandom" (VBool (soonRandomCheckBox w));;
  assign "laterRandom" (VBool (laterRandomCheckBox w));;
  assign "extractRandom" (VBool (extractRandomCheckBox w));;
  (if bool_decide (extractDeckComboBox w = "[Current Deck]")
   then assign "extractDeck" VNone
   else assign "extractDeck" (VStr (extractDeckComboBox w)));;
  saveNumbers w;;
  (if soonPercentButton w
   then assign "soonMethod" (VStr "percent")
   else assign "soonMethod" (VStr "count"));;
  (if laterPercentButton w
   then assign "laterMethod" (VStr "percent")
   else assign "laterMethod" (VStr "count"));;
  (if extractPercentButton w
   then assign "extractMethod" (VStr "percent")
   else assign "extractMethod" (VStr "count"));;
  (if limitAllCardsButton w then
     assign "limitWidth" (VBool true);;
     assign "limitWidthAll" (VBool true)
   else if limitIrCardsButton w then
     assign "limitWidth" (VBool true);;
     assign "limitWidthAll" (VBool false)
   else
     assign "limitWidth" (VBool false);;
     assign "limitWidthAll" (VBool false));;
  emit ResetZoom.

(** The items of the three key combo boxes ([createGeneralTab]) and, after
    an empty first item, of the regular-key combo box. *)
Definition keys : list string :=
  ["A"; "B"; "C"; "D"; "E"; "F"; "G"; "H"; "I"; "J"; "K"; "L"; "M"; "N";
   "O"; "P"; "Q"; "R"; "S"; "T"; "U"; "V"; "W"; "X"; "Y"; "Z";
   "1"; "2"; "3"; "4"; "5"; "6"; "7"; "8"; "9"].

Definition setDefaultKeys : M unit :=
  s ← attr settings;
  v ← py_getitem s "extractKey";
  emit (SetComboBoxItem "extractKeyComboBox" v);;
  s ← attr settings;
  v ← py_getitem s "highlightKey";
  emit (SetComboBoxItem "highlightKeyComboBox" v);;
  s ← attr settings;
  v ← py_getitem s "removeKey";
  emit (SetComboBoxItem "removeKeyComboBox" v).

Definition conflict : string :=
  "There is a conflict with the keys you have chosen."
  +:+ " Please try again.".

(** The arguments are the current texts of the three combo boxes. *)
Definition saveKeys (extractKeyComboBox highlightKeyComboBox
                     removeKeyComboBox : string) : M unit :=
  let keys := [extractKeyComboBox; highlightKeyComboBox; removeKeyComboBox] in
  if bool_decide (size (list_to_set keys : gset string) < 3) then
    showInfo conflict;;
    setDefaultKeys
  else
    assign "extractKey" (VStr (lower extractKeyComboBox));;
    assign "highlightKey" (VStr (lower highlightKeyComboBox));;
    assign "removeKey" (VStr (lower removeKeyComboBox)).

(** The widgets [setQuickKey] reads. *)
Record QuickKeysTab := {
  destDeckComboBox : string;
  noteTypeComboBox : string;
  textFieldComboBox : string;
  ctrlKeyCheckBox : bool;
  shiftKeyCheckBox : bool;
  altKeyCheckBox : bool;
  regularKeyComboBox : string;
  bgColorComboBox : string;
  textColorComboBox : string;
  quickKeyEditExtractCheckBox : bool;
  quickKeyEditSourceCheckBox : bool;
  quickKeyPlainTextCheckBox : bool
}.

(** The dict literal that opens [setQuickKey]. *)
Definition quickKey_of (w : QuickKeysTab) : gmap string value :=
  list_to_map
    [("deckName", VStr (destDeckComboBox w));
     ("modelName", VStr (noteTypeComboBox w));
     ("fieldName", VStr (textFieldComboBox w));
     ("ctrl", VBool (ctrlKeyCheckBox w));
     ("shift", VBool (shiftKeyCheckBox w));
     ("alt", VBool (altKeyCheckBox w));
     ("regularKey", VStr (regularKeyComboBox w));
     ("bgColor", VStr (bgColorComboBox w));
     ("textColor", VStr (textColorComboBox w));
     ("editExtract", VBool (quickKeyEditExtractCheckBox w));
     ("editSource", VBool (quickKeyEditSourceCheckBox w));
     ("plainText", VBool (quickKeyPlainTextCheckBox w))].

Definition incomplete : string :=
  "Please complete all settings. Destination deck,"
  +:+ " note type, and a letter or number for the key"
  +:+ " combination are required.".

(** The key combination [setQuickKey] derives from an entry. *)
Definition keyCombo_of (quickKey : gmap string value) : M string :=
  let keyCombo := "" in
  ctrl ← local_getitem quickKey "ctrl";
  ctrl ← truthy ctrl;
  let keyCombo := if ctrl : bool then keyCombo +:+ "Ctrl+" else keyCombo in
  shift ← local_getitem quickKey "shift";
  shift ← truthy shift;
  let keyCombo := if shift : bool then keyCombo +:+ "Shift+" else keyCombo in
  alt ← local_getitem quickKey "alt";
  alt ← truthy alt;
  let keyCombo := if alt : bool then keyCombo +:+ "Alt+" else keyCombo in
  regularKey ← local_getitem quickKey "regularKey";
  py_str_add keyCombo regularKey.

(** The entry is a local until it is stored under its key combination;
    it becomes a heap object there. *)
Definition setQuickKey (w : QuickKeysTab) : M unit :=
  let quickKey := quickKey_of w in
  returned ← for_break ["deckName"; "modelName"; "regularKey"] (λ k,
    v ← local_getitem quickKey k;
    filled ← truthy v;
    if filled : bool then mret false
    else showInfo incomplete;; mret true);
  if returned : bool then mret ()
  else
    keyCombo ← keyCombo_of quickKey;
    s ← attr settings;
    quickKeys ← py_getitem s "quickKeys";
    entry ← alloc (ODict quickKey);
    py_setitem quickKeys keyCombo entry;;
    loadMenuItems;;
    showInfo ("New shortcut added: " +:+ keyCombo).

End SettingsManager.

(* ===================================================================== *)
(** ** Reading the document off a state *)
(* ===================================================================== *)

(** [self.settings] is the dict [s], held at address [ls]. *)
Definition settings_at (st : state) (ls : loc) (s : gmap string value) : Prop :=
  settings st = Some (VRef ls) ∧ heap st !! ls = Some (ODict s).

(** [self.defaults] is the dict [d], held at address [ld]. *)
Definition defaults_at (st : state) (ld : loc) (d : gmap string value) : Prop :=
  defaults st = Some (VRef ld) ∧ heap st !! ld = Some (ODict d).

(** [self.settings[k]], when the document is a dict that has [k]. *)
Definition setting (st : state) (k : string) : option value :=
  match settings st with
  | Some v =>
      match deref (heap st) v with
      | Some (ODict s) => s !! k
      | _ => None
      end
  | None => None
  end.

(** The state with the dict at [l] replaced by [s]. *)
Definition put (l : loc) (s : gmap string value) (st : state) : state :=
  set_heap (<[l := ODict s]> (heap st)) st.

(* ===================================================================== *)
(** ** Running the primitives *)
(* ===================================================================== *)

Lemma run_bind {A B} (m : M A) (f : A → M B) (st : state) :
  (m ≫= f) st =
  match m st with
  | (Ok a, st') => f a st'
  | (Raise e, st') => (Raise e, st')
  end.
Proof. reflexivity. Qed.

Lemma run_bind_ok {A B} (m : M A) (f : A → M B) st a st' :
  m st = (Ok a, st') → (m ≫= f) st = f a st'.
Proof. intros H. rewrite run_bind, H. reflexivity. Qed.

Lemma run_bind_raise {A B} (m : M A) (f : A → M B) st e st' :
  m st = (Raise e, st') → (m ≫= f) st = (Raise e, st').
Proof. intros H. rewrite run_bind, H. reflexivity. Qed.

Lemma put_same l s st : heap st !! l = Some (ODict s) → put l s st = st.
Proof.
  intros H. destruct st as [h d v c e]. unfold put, set_heap. simpl in *.
  f_equal. by apply insert_id.
Qed.

Lemma put_put l s s' st : put l s' (put l s st) = put l s' st.
Proof. unfold put, set_heap. simpl. f_equal. apply insert_insert_eq. Qed.

Lemma heap_put l s st : heap (put l s st) = <[l := ODict s]> (heap st).
Proof. reflexivity. Qed.

Lemma settings_at_put st ls s' :
  settings st = Some (VRef ls) → settings_at (put ls s' st) ls s'.
Proof. intros H. split; [exact H | apply lookup_insert_eq]. Qed.

Lemma run_attr_settings st v :
  settings st = Some v → attr settings st = (Ok v, st).
Proof. intros H. unfold attr. by rewrite H. Qed.

Lemma run_contains_dict st l d k :
  heap st !! l = Some (ODict d) →
  py_contains (VRef l) k st = (Ok (bool_decide (is_Some (d !! k))), st).
Proof. intros H. unfold py_contains. by rewrite H. Qed.

Lemma run_setitem_dict st l d k v :
  heap st !! l = Some (ODict d) →
  py_setitem (VRef l) k v st = (Ok (), put l (<[k := v]> d) st).
Proof. intros H. unfold py_setitem. by rewrite H. Qed.

Lemma run_getitem_dict st l d k v :
  heap st !! l = Some (ODict d) → d !! k = Some v →
  py_getitem (VRef l) k st = (Ok v, st).
Proof. intros H Hk. unfold py_getitem. by rewrite H, Hk. Qed.

Lemma run_pop_dict st l d k v :
  heap st !! l = Some (ODict d) → d !! k = Some v →
  py_pop (VRef l) k st = (Ok v, put l (delete k d) st).
Proof. intros H Hk. unfold py_pop. by rewrite H, Hk. Qed.

Lemma run_items_dict st l d :
  heap st !! l = Some (ODict d) →
  py_items (VRef l) st = (Ok (map_to_list d), st).
Proof. intros H. unfold py_items. simpl. by rewrite H. Qed.

Lemma run_assign st ls s k v :
  settings_at st ls s →
  assign k v st = (Ok (), put ls (<[k := v]> s) st).
Proof.
  intros [Hs Hh]. unfold assign.
  rewrite (run_bind_ok _ _ _ _ _ (run_attr_settings _ _ Hs)).
  by apply run_setitem_dict.
Qed.

(* ===================================================================== *)
(** ** addMissingSettings *)
(* ===================================================================== *)

(** The state [addMissingSettings] leaves when the document is the dict
    [s] at [ls] and the defaults it walks are [m]. *)
Definition reconciled (ls : loc) (s m : gmap string value) (st : state) : state :=
  State (<[ls := ODict (s ∪ m)]> (heap st)) (defaults st) (settings st)
        (if decide (dom m ⊆ dom s) then settingsChanged st else Some true)
        (events st).

Definition addMissing_body : string * value → M unit := λ '(k, v),
  s ← attr settings;
  present ← py_contains s k;
  if present : bool then mret ()
  else
    s ← attr settings;
    py_setitem s k v;;
    modify (set_settingsChanged true).

Lemma addMissing_loop (items : list (string * value)) :
  ∀ st ls s, settings_at st ls s →
    for_each items addMissing_body st
    = (Ok (), reconciled ls s (list_to_map items) st).
Proof.
  induction items as [|[k v] items IH]; intros st ls s [Hs Hh].
  - simpl. unfold mret, M_ret, reconciled. f_equal.
    destruct st as [h d sv c e]. simpl in *.
    rewrite decide_True by set_solver.
    f_equal. rewrite (right_id_L ∅ (∪)). by rewrite insert_id.
  - cbn [for_each list_to_map foldr]. rewrite run_bind.
    unfold addMissing_body at 1.
    rewrite (run_bind_ok _ _ _ _ _ (run_attr_settings _ _ Hs)).
    rewrite (run_bind_ok _ _ _ _ _ (run_contains_dict _ _ _ k Hh)).
    destruct (s !! k) as [x|] eqn:Hk.
    + rewrite bool_decide_eq_true_2 by eauto.
      unfold mret at 1, M_ret at 1.
      rewrite (IH st ls s (conj Hs Hh)).
      f_equal. unfold reconciled. f_equal.
      * f_equal. f_equal. apply map_eq. intros i.
        rewrite !lookup_union. destruct (decide (i = k)) as [->|Hne].
        -- rewrite Hk. simpl. by destruct (list_to_map items !! k), (<[k:=v]> (list_to_map items) !! k).
        -- by rewrite lookup_insert_ne.
      * assert (k ∈ dom s) as Hin by (apply elem_of_dom; eauto).
        simpl. rewrite dom_insert_L.
        destruct (decide (dom (list_to_map items) ⊆ dom s)) as [Hd|Hd].
        -- rewrite decide_True; [reflexivity|]. set_solver.
        -- rewrite decide_False; [reflexivity|]. set_solver.
    + rewrite bool_decide_eq_false_2 by (intros [? ?]; congruence).
      rewrite (run_bind_ok _ _ _ _ _ (run_attr_settings _ _ Hs)).
      rewrite (run_bind_ok _ _ _ _ _ (run_setitem_dict _ _ _ k v Hh)).
      unfold modify at 1.
      rewrite (IH _ ls (<[k := v]> s)); last first.
      { split; [exact Hs | apply lookup_insert_eq]. }
      f_equal. unfold reconciled. cbn [heap defaults settings settingsChanged events set_settingsChanged put set_heap].
      f_equal.
      * rewrite insert_insert_eq. f_equal. f_equal.
        simpl. rewrite <- insert_union_l. by apply insert_union_r.
      * assert (k ∉ dom s) as Hin by (by apply not_elem_of_dom).
        simpl. rewrite !dom_insert_L.
        destruct (decide ({[k]} ∪ dom (list_to_map items) ⊆ dom s)) as [Hd|Hd];
          [exfalso; set_solver|].
        by destruct (decide _).
Qed.

Lemma addMissingSettings_run st ls s ld d :
  settings_at st ls s → defaults_at st ld d →
  addMissingSettings st = (Ok (), reconciled ls s d st).
Proof.
  intros Hs [Hd Hh]. unfold addMissingSettings.
  rewrite (run_bind_ok (attr defaults) _ st (VRef ld) st)
    by (unfold attr; by rewrite Hd).
  rewrite (run_bind_ok _ _ _ _ _ (run_items_dict _ _ _ Hh)).
  change (for_each (map_to_list d) addMissing_body st = (Ok (), reconciled ls s d st)).
  rewrite (addMissing_loop _ st ls s Hs).
  by rewrite list_to_map_to_list.
Qed.

Lemma union_complete (s d : gmap string value) : dom d ⊆ dom s → s ∪ d = s.
Proof.
  intros Hsub. apply map_eq. intros i. rewrite lookup_union.
  destruct (s !! i) as [x|] eqn:Hi; [by destruct (d !! i)|].
  assert (d !! i = None) as ->; [|done].
  apply not_elem_of_dom. intros Hin. apply Hsub in Hin.
  by apply not_elem_of_dom in Hi.
Qed.

(* ===================================================================== *)
(** ** Sample managers *)
(* ===================================================================== *)

(** A manager as [__init__] leaves it. *)
Definition new_manager : state :=
  (init "4.0.0" "https://github.com/luoliyan/incremental-reading" blank).2.

Definition new_defaults : gmap string value :=
  list_to_map
    (default_items "4.0.0" "https://github.com/luoliyan/incremental-reading"
       (VRef 1%positive) (VRef 2%positive) (VRef 3%positive)
       (VRef 4%positive) (VRef 5%positive)).

(** A manager whose document, just read from a file, holds one setting. *)
Definition sparse_manager : state :=
  ((v ← json_load (JObj [("extractKey", JStr "q")]);
    modify (set_settings v)) new_manager).2.

(* ===================================================================== *)
(** ** Claims on addMissingSettings *)
(* ===================================================================== *)

(** C1. Reconciliation completeness: when the document is a mapping,
    [addMissingSettings] returns normally; afterwards the document has
    every key of the default schema, a key that was absent holds the value
    the schema gives it, a key that was present keeps its value, the flag
    is raised exactly when some key was missing, and no other object is
    touched. *)
Theorem addMissingSettings_complete st ls s ld d :
  settings_at st ls s → defaults_at st ld d →
  ∃ st' s',
    addMissingSettings st = (Ok (), st') ∧
    settings_at st' ls s' ∧
    dom d ⊆ dom s' ∧
    (∀ k, s !! k = None → s' !! k = d !! k) ∧
    (∀ k v, s !! k = Some v → s' !! k = Some v) ∧
    settingsChanged st'
      = (if decide (dom d ⊆ dom s) then settingsChanged st else Some true) ∧
    (∀ l, l ≠ ls → heap st' !! l = heap st !! l).
Proof.
  intros Hs Hd. exists (reconciled ls s d st), (s ∪ d).
  split; [by eapply addMissingSettings_run|].
  destruct Hs as [Hs Hh].
  split; [split; [exact Hs | apply lookup_insert_eq]|].
  split; [rewrite dom_union_L; apply union_subseteq_r|].
  split; [intros k Hk; rewrite lookup_union, Hk; by destruct (d !! k)|].
  split; [intros k v Hk; rewrite lookup_union, Hk; by destruct (d !! k)|].
  split; [reflexivity|].
  intros l Hne. unfold reconciled. simpl. by apply lookup_insert_ne.
Qed.

Lemma addMissingSettings_complete_witness :
  ∃ st' s',
    addMissingSettings sparse_manager = (Ok (), st') ∧
    settings_at st' 7%positive s' ∧
    dom new_defaults ⊆ dom s' ∧
    (∀ k, ({[ "extractKey" := VStr "q" ]} : gmap string value) !! k = None
          → s' !! k = new_defaults !! k) ∧
    (∀ k v, ({[ "extractKey" := VStr "q" ]} : gmap string value) !! k = Some v
            → s' !! k = Some v) ∧
    settingsChanged st'
      = (if decide (dom new_defaults ⊆ dom ({[ "extractKey" := VStr "q" ]} : gmap string value))
         then settingsChanged sparse_manager else Some true) ∧
    (∀ l, l ≠ 7%positive → heap st' !! l = heap sparse_manager !! l).
Proof.
  apply (addMissingSettings_complete sparse_manager 7%positive
           {[ "extractKey" := VStr "q" ]} 6%positive new_defaults).
  - split; vm_compute; reflexivity.
  - split; vm_compute; reflexivity.
Defined.

(** C3. Idempotence of reconciliation: on a document that already has
    every key of the default schema, [addMissingSettings] changes nothing:
    no value, no key, and not the [settingsChanged] flag. *)
Theorem addMissingSettings_idempotent st ls s ld d :
  settings_at st ls s → defaults_at st ld d → dom d ⊆ dom s →
  addMissingSettings st = (Ok (), st).
Proof.
  intros Hs Hd Hsub. rewrite (addMissingSettings_run st ls s ld d Hs Hd).
  f_equal. unfold reconciled. rewrite decide_True by exact Hsub.
  rewrite (union_complete _ _ Hsub).
  destruct Hs as [_ Hh]. destruct st as [h dv sv c e]. simpl in *.
  f_equal. by apply insert_id.
Qed.

Lemma addMissingSettings_idempotent_witness :
  addMissingSettings (addMissingSettings sparse_manager).2
  = (Ok (), (addMissingSettings sparse_manager).2).
Proof.
  apply (addMissingSettings_idempotent _ 7%positive
           ({[ "extractKey" := VStr "q" ]} ∪ new_defaults) 6%positive
           new_defaults).
  - split; vm_compute; reflexivity.
  - split; vm_compute; reflexivity.
  - rewrite dom_union_L. apply union_subseteq_r.
Defined.

(* ===================================================================== *)
(** ** removeOutdatedQuickKeys *)
(* ===================================================================== *)

Definition has_fields (e : gmap string value) (ks : list string) : bool :=
  forallb (λ k, bool_decide (is_Some (e !! k))) ks.

(** An entry that has all the required fields. *)
Definition complete (h : gmap loc object) (v : value) : bool :=
  match deref h v with
  | Some (ODict e) => has_fields e required
  | _ => false
  end.

(** The entries of [quickKeys] are dicts of their own, as the data model
    has them. *)
Definition entry_is_dict (h : gmap loc object) (lq : loc) (v : value) : bool :=
  match v with
  | VRef le =>
      bool_decide (le ≠ lq) &&
      match h !! le with
      | Some (ODict _) => true
      | _ => false
      end
  | _ => false
  end.

Definition entries_are_dicts (h : gmap loc object) (lq : loc)
    (q : gmap string value) : Prop :=
  map_Forall (λ _ v, entry_is_dict h lq v = true) q.

Lemma entry_is_dict_inv h lq v :
  entry_is_dict h lq v = true →
  ∃ le e, v = VRef le ∧ le ≠ lq ∧ h !! le = Some (ODict e).
Proof.
  destruct v as [| | | | |le]; try discriminate. simpl.
  intros [Hne Hd]%andb_true_iff. apply bool_decide_eq_true_1 in Hne.
  destruct (h !! le) as [[e|]|] eqn:He; try discriminate. by exists le, e.
Qed.

Definition prune_body (keyCombo : string) (quickKey : value) : string → M bool :=
  λ k,
    present ← py_contains quickKey k;
    if present : bool then mret false
    else
      s ← attr settings;
      quickKeys ← py_getitem s "quickKeys";
      py_pop quickKeys keyCombo;;
      modify (set_settingsChanged true);;
      mret true.

Definition prune_step : string * value → M unit := λ '(keyCombo, quickKey),
  for_break required (prune_body keyCombo quickKey);;
  mret ().

Lemma prune_inner (rs : list string) st ls s lq qc keyCombo x le e :
  settings_at st ls s → s !! "quickKeys" = Some (VRef lq) →
  heap st !! lq = Some (ODict qc) → qc !! keyCombo = Some x →
  heap st !! le = Some (ODict e) →
  for_break rs (prune_body keyCombo (VRef le)) st
  = if has_fields e rs then (Ok false, st)
    else (Ok true, set_settingsChanged true (put lq (delete keyCombo qc) st)).
Proof.
  intros [Hs Hh] Hq Hlq Hx Hle.
  induction rs as [|r rs IH]; [reflexivity|].
  cbn [for_break has_fields forallb]. rewrite run_bind.
  unfold prune_body at 1.
  rewrite (run_bind_ok _ _ _ _ _ (run_contains_dict _ _ _ r Hle)).
  destruct (bool_decide (is_Some (e !! r))); cbn [andb].
  - unfold mret at 1, M_ret at 1. exact IH.
  - rewrite (run_bind_ok _ _ _ _ _ (run_attr_settings _ _ Hs)).
    rewrite (run_bind_ok _ _ _ _ _ (run_getitem_dict _ _ _ _ _ Hh Hq)).
    rewrite (run_bind_ok _ _ _ _ _ (run_pop_dict _ _ _ _ _ Hlq Hx)).
    reflexivity.
Qed.

(** What the walk over [items] leaves of the dict [qc], for a test [c] of
    completeness. *)
Definition pruned (c : value → bool) (items : list (string * value))
    (qc : gmap string value) : gmap string value :=
  foldl (λ acc '(k, v), if c v then acc else delete k acc) qc items.

Definition all_complete (c : value → bool) (items : list (string * value)) : bool :=
  forallb (λ kv, c kv.2) items.

Lemma pruned_cons c k v items qc :
  pruned c ((k, v) :: items) qc
  = pruned c items (if c v then qc else delete k qc).
Proof. reflexivity. Qed.

Lemma pruned_lookup c items : ∀ qc k0,
  pruned c items qc !! k0
  = if existsb (λ kv, bool_decide (kv.1 = k0) && negb (c kv.2)) items
    then None else qc !! k0.
Proof.
  induction items as [|[k v] items IH]; intros qc k0; [reflexivity|].
  rewrite pruned_cons, IH. cbn [existsb fst snd]. destruct (existsb _ items); [by rewrite orb_true_r|].
  rewrite orb_false_r. destruct (c v); cbn [negb].
  - by rewrite andb_false_r.
  - rewrite andb_true_r. case_bool_decide as Hk.
    + subst. apply lookup_delete_eq.
    + by apply lookup_delete_ne.
Qed.

Section prune_loop.

Variables (c : value → bool) (ls lq : loc) (s : gmap string value).
Hypothesis Hquick : s !! "quickKeys" = Some (VRef lq).
Hypothesis Hne : ls ≠ lq.

Lemma prune_outer (items : list (string * value)) : ∀ st qc,
  settings_at st ls s → heap st !! lq = Some (ODict qc) →
  NoDup items.*1 →
  (∀ k v, (k, v) ∈ items →
     qc !! k = Some v ∧
     ∃ le e, v = VRef le ∧ le ≠ lq ∧ heap st !! le = Some (ODict e) ∧
             c v = has_fields e required) →
  for_each items prune_step st
  = (Ok (),
     State (<[lq := ODict (pruned c items qc)]> (heap st)) (defaults st)
           (settings st)
           (if all_complete c items then settingsChanged st else Some true)
           (events st)).
Proof.
  induction items as [|[k v] items IH]; intros st qc Hs Hlq Hnd Hitems.
  - simpl. unfold mret, M_ret. f_equal.
    destruct st as [h d sv ch ev]. simpl in *. f_equal. by rewrite insert_id.
  - cbn [for_each]. rewrite run_bind. unfold prune_step at 1.
    destruct (Hitems k v) as (Hk & le & e & -> & Hle & He & Hc); [left|].
    rewrite run_bind.
    rewrite (prune_inner required st ls s lq qc k (VRef le) le e Hs Hquick Hlq Hk He).
    rewrite pruned_cons. cbn [all_complete forallb snd].
    fold (all_complete c items). rewrite Hc.
    apply NoDup_cons in Hnd as [Hnotin Hnd].
    assert (∀ k' v', (k', v') ∈ items → k' ≠ k) as Hother.
    { intros k' v' Hin ->. apply Hnotin.
      apply list_elem_of_fmap. by exists (k, v'). }
    destruct (has_fields e required); cbn [andb].
    + unfold mret at 1, M_ret at 1. apply IH; [done..|].
      intros k' v' Hin. apply Hitems. by right.
    + unfold mret at 1, M_ret at 1.
      rewrite (IH _ (delete k qc)); [| | |done|].
      * f_equal. cbn [heap defaults settings settingsChanged events
                      set_settingsChanged put set_heap].
        rewrite insert_insert_eq. f_equal. by destruct (all_complete c items).
      * destruct Hs as [Hs Hh]. split; [exact Hs|].
        cbn [heap set_settingsChanged put set_heap].
        by rewrite lookup_insert_ne.
      * cbn [heap set_settingsChanged put set_heap]. apply lookup_insert_eq.
      * intros k' v' Hin.
        destruct (Hitems k' v') as (Hk' & le' & e' & -> & Hle' & He' & Hc');
          [by right|].
        split; [rewrite lookup_delete_ne; [done|]; intros <-; by eapply Hother|].
        exists le', e'. split; [done|]. split; [done|]. split; [|done].
        cbn [heap set_settingsChanged put set_heap].
        by rewrite lookup_insert_ne.
Qed.

End prune_loop.

Lemma removeOutdatedQuickKeys_run st ls s lq q :
  settings_at st ls s → s !! "quickKeys" = Some (VRef lq) →
  heap st !! lq = Some (ODict q) → entries_are_dicts (heap st) lq q →
  removeOutdatedQuickKeys st
  = (Ok (),
     State (<[lq := ODict (pruned (complete (heap st)) (map_to_list q) q)]> (heap st))
           (defaults st) (settings st)
           (if all_complete (complete (heap st)) (map_to_list q)
            then settingsChanged st else Some true)
           (events st)).
Proof.
  intros Hs Hq Hlq Hent.
  assert (ls ≠ lq) as Hne.
  { intros ->. destruct Hs as [_ Hh]. rewrite Hlq in Hh. injection Hh as ->.
    destruct (entry_is_dict_inv _ _ _ (Hent _ _ Hq)) as (le & e & [= <-] & Hle & _).
    by apply Hle. }
  unfold removeOutdatedQuickKeys.
  rewrite (run_bind_ok _ _ _ _ _ (run_attr_settings _ _ (proj1 Hs))).
  rewrite (run_bind_ok _ _ _ _ _ (run_getitem_dict _ _ _ _ _ (proj2 Hs) Hq)).
  unfold py_copy_items.
  rewrite (run_bind_ok _ _ _ _ _ (run_items_dict _ _ _ Hlq)).
  refine (prune_outer (complete (heap st)) ls lq s Hq Hne (map_to_list q)
            st q Hs Hlq _ _).
  - apply NoDup_fst_map_to_list.
  - intros k v Hin%elem_of_map_to_list. split; [done|].
    destruct (entry_is_dict_inv _ _ _ (Hent _ _ Hin)) as (le & e & -> & Hle & He).
    exists le, e. repeat split; [done..|].
    unfold complete. simpl. by rewrite He.
Qed.

Lemma pruned_map_lookup c (q : gmap string value) k v :
  pruned c (map_to_list q) q !! k = Some v ↔ q !! k = Some v ∧ c v = true.
Proof.
  rewrite pruned_lookup.
  destruct (existsb _ (map_to_list q)) eqn:Hex.
  - apply existsb_exists in Hex as ([k' v'] & Hin & Hb).
    apply list_elem_of_In, elem_of_map_to_list in Hin.
    apply andb_true_iff in Hb as [Hk Hc]. simpl in *.
    apply bool_decide_eq_true_1 in Hk. subst k'.
    split; [done|]. intros [Hq Hcv]. rewrite Hin in Hq. injection Hq as ->.
    rewrite Hcv in Hc. discriminate.
  - split; [|by intros [? _]]. intros Hq. split; [done|].
    destruct (c v) eqn:Hc; [done|].
    assert (existsb (λ kv : string * value, bool_decide (kv.1 = k) && negb (c kv.2))
              (map_to_list q) = true) as Hyes; [|congruence].
    apply existsb_exists. exists (k, v). split.
    + by apply list_elem_of_In, elem_of_map_to_list.
    + simpl. rewrite Hc. by rewrite bool_decide_eq_true_2.
Qed.

Lemma all_complete_spec c (q : gmap string value) :
  all_complete c (map_to_list q) = true ↔ ∀ k v, q !! k = Some v → c v = true.
Proof.
  unfold all_complete. rewrite forallb_forall. split.
  - intros H k v Hq. apply (H (k, v)).
    by apply list_elem_of_In, elem_of_map_to_list.
  - intros H [k v] Hin. apply list_elem_of_In, elem_of_map_to_list in Hin.
    by apply (H k v).
Qed.

(** A manager whose document holds the two shortcuts of the specification's
    example: ["A"] with every required field, ["B"] without [deckName]. *)
Definition entry_A : list (string * json) :=
  [("alt", JBool false); ("bgColor", JStr "Yellow"); ("ctrl", JBool true);
   ("deckName", JStr "Default"); ("editExtract", JBool false);
   ("editSource", JBool false); ("fieldName", JStr "Front");
   ("modelName", JStr "Basic"); ("regularKey", JStr "A");
   ("shift", JBool false); ("textColor", JStr "Black")].

Definition entry_B : list (string * json) :=
  [("alt", JBool false); ("bgColor", JStr "Yellow"); ("ctrl", JBool true);
   ("editExtract", JBool false);
   ("editSource", JBool false); ("fieldName", JStr "Front");
   ("modelName", JStr "Basic"); ("regularKey", JStr "B");
   ("shift", JBool false); ("textColor", JStr "Black")].

Definition two_shortcuts : state :=
  ((v ← json_load (JObj [("quickKeys",
                           JObj [("A", JObj entry_A); ("B", JObj entry_B)])]);
    modify (set_settings v)) new_manager).2.

(** C2. Quick-key pruning: on a document whose [quickKeys] entries are
    mappings, [removeOutdatedQuickKeys] returns normally and leaves in
    [quickKeys] exactly the entries that have all eleven required fields,
    each bound as before; the entries themselves and every other object are
    untouched; the flag is set when an entry was deleted and left alone
    otherwise. *)
Theorem removeOutdatedQuickKeys_prunes st ls s lq q :
  settings_at st ls s → s !! "quickKeys" = Some (VRef lq) →
  heap st !! lq = Some (ODict q) → entries_are_dicts (heap st) lq q →
  ∃ st' q',
    removeOutdatedQuickKeys st = (Ok (), st') ∧
    settings st' = settings st ∧
    heap st' !! lq = Some (ODict q') ∧
    (∀ k v, q' !! k = Some v ↔ q !! k = Some v ∧ complete (heap st) v = true) ∧
    (∀ l, l ≠ lq → heap st' !! l = heap st !! l) ∧
    (q' = q → settingsChanged st' = settingsChanged st) ∧
    (q' ≠ q → settingsChanged st' = Some true).
Proof.
  intros Hs Hq Hlq Hent. eexists _, _.
  split; [by eapply removeOutdatedQuickKeys_run|]. cbn [settings heap settingsChanged].
  split; [done|].
  split; [apply lookup_insert_eq|].
  split; [intros k v; apply pruned_map_lookup|].
  split; [intros l Hl; by apply lookup_insert_ne|].
  destruct (all_complete _ _) eqn:Hall.
  - split; [done|]. intros Hneq. exfalso. apply Hneq.
    apply map_eq. intros k. apply option_eq. intros v.
    rewrite pruned_map_lookup. split; [by intros [? _]|].
    intros Hk. split; [done|]. eapply all_complete_spec; eauto.
  - split; [|done]. intros Heq. exfalso.
    assert (all_complete (complete (heap st)) (map_to_list q) = true) as Hyes;
      [|congruence].
    apply all_complete_spec. intros k v Hk.
    rewrite <- Heq in Hk. by apply pruned_map_lookup in Hk as [_ ?].
Qed.

Lemma removeOutdatedQuickKeys_prunes_witness :
  ∃ st' q',
    removeOutdatedQuickKeys two_shortcuts = (Ok (), st') ∧
    settings st' = settings two_shortcuts ∧
    heap st' !! 9%positive = Some (ODict q') ∧
    (∀ k v, q' !! k = Some v ↔
       ({[ "A" := VRef 7%positive; "B" := VRef 8%positive ]} : gmap string value) !! k
         = Some v
       ∧ complete (heap two_shortcuts) v = true) ∧
    (∀ l, l ≠ 9%positive → heap st' !! l = heap two_shortcuts !! l) ∧
    (q' = {[ "A" := VRef 7%positive; "B" := VRef 8%positive ]}
       → settingsChanged st' = settingsChanged two_shortcuts) ∧
    (q' ≠ {[ "A" := VRef 7%positive; "B" := VRef 8%positive ]}
       → settingsChanged st' = Some true).
Proof.
  apply (removeOutdatedQuickKeys_prunes two_shortcuts 10%positive
           {[ "quickKeys" := VRef 9%positive ]} 9%positive).
  - split; vm_compute; reflexivity.
  - vm_compute; reflexivity.
  - vm_compute; reflexivity.
  - apply (bool_decide_unpack _). vm_compute. exact I.
Defined.

(** The example of the specification: only ["A"] remains. *)
Lemma two_shortcuts_pruned :
  ∃ st', removeOutdatedQuickKeys two_shortcuts = (Ok (), st') ∧
         heap st' !! 9%positive = Some (ODict {[ "A" := VRef 7%positive ]}) ∧
         settingsChanged st' = Some true.
Proof. eexists. split; [vm_compute; reflexivity|]. split; vm_compute; reflexivity. Qed.

(* ===================================================================== *)
(** ** json.load *)
(* ===================================================================== *)

(** [st'] differs from [st] by new objects only. *)
Definition grown (st st' : state) : Prop :=
  defaults st' = defaults st ∧ settings st' = settings st ∧
  settingsChanged st' = settingsChanged st ∧ events st' = events st ∧
  heap st ⊆ heap st'.

Lemma grown_refl st : grown st st.
Proof. by repeat split. Qed.

Lemma grown_trans st1 st2 st3 : grown st1 st2 → grown st2 st3 → grown st1 st3.
Proof.
  intros (?&?&?&?&?) (?&?&?&?&?). repeat split; try congruence.
  by etrans.
Qed.

Lemma grown_lookup st st' l o :
  grown st st' → heap st !! l = Some o → heap st' !! l = Some o.
Proof. intros (_&_&_&_&Hsub) Hl. by eapply lookup_weaken. Qed.

Lemma alloc_grown o st :
  ∃ l, alloc o st = (Ok (VRef l), set_heap (<[l := o]> (heap st)) st) ∧
       heap st !! l = None ∧
       grown st (set_heap (<[l := o]> (heap st)) st).
Proof.
  exists (fresh (dom (heap st))). split; [reflexivity|].
  assert (heap st !! fresh (dom (heap st)) = None) as Hfresh.
  { apply not_elem_of_dom, is_fresh. }
  split; [exact Hfresh|]. repeat split. simpl. by apply insert_subseteq.
Qed.

(** The value of a JSON text that is not an object is not a dict. *)
Definition is_dict (h : gmap loc object) (v : value) : bool :=
  match deref h v with
  | Some (ODict _) => true
  | _ => false
  end.

Section json_induction.

Variable P : json → Prop.
Hypothesis Hnull : P JNull.
Hypothesis Hbool : ∀ b, P (JBool b).
Hypothesis Hint : ∀ n, P (JInt n).
Hypothesis Hfloat : ∀ f, P (JFloat f).
Hypothesis Hstr : ∀ s, P (JStr s).
Hypothesis Harr : ∀ xs, Forall P xs → P (JArr xs).
Hypothesis Hobj : ∀ ms, Forall (λ m, P m.2) ms → P (JObj ms).

Fixpoint json_nested_ind (j : json) : P j :=
  match j with
  | JNull => Hnull
  | JBool b => Hbool b
  | JInt n => Hint n
  | JFloat f => Hfloat f
  | JStr s => Hstr s
  | JArr xs =>
      Harr xs ((fix all (xs : list json) : Forall P xs :=
                  match xs with
                  | [] => @List.Forall_nil _ P
                  | x :: xs' => @List.Forall_cons _ P x xs' (json_nested_ind x) (all xs')
                  end) xs)
  | JObj ms =>
      Hobj ms ((fix all (ms : list (string * json)) : Forall (λ m, P m.2) ms :=
                  match ms with
                  | [] => @List.Forall_nil _ (λ m, P m.2)
                  | m :: ms' =>
                      @List.Forall_cons _ (λ m, P m.2) m ms' (json_nested_ind m.2) (all ms')
                  end) ms)
  end.

End json_induction.

Definition loads (j : json) : Prop :=
  ∀ st, ∃ v st', json_value j st = (Ok v, st') ∧ grown st st'.

Lemma json_elements_loads xs :
  Forall loads xs →
  ∀ st, ∃ vs st', json_elements json_value xs st = (Ok vs, st') ∧ grown st st'.
Proof.
  induction 1 as [|x xs Hx _ IH]; intros st.
  - exists [], st. split; [reflexivity | apply grown_refl].
  - destruct (Hx st) as (v & st1 & E1 & G1).
    destruct (IH st1) as (vs & st2 & E2 & G2).
    exists (v :: vs), st2. split; [|by eapply grown_trans].
    cbn [json_elements]. rewrite (run_bind_ok _ _ _ _ _ E1).
    fold (json_elements json_value). by rewrite (run_bind_ok _ _ _ _ _ E2).
Qed.

Lemma json_members_loads ms :
  Forall (λ m, loads m.2) ms →
  ∀ d st, ∃ d' st',
    json_members json_value ms d st = (Ok d', st') ∧ grown st st' ∧
    dom d' = dom d ∪ list_to_set ms.*1.
Proof.
  induction 1 as [|[k x] ms Hx _ IH]; intros d st.
  - exists d, st. split; [reflexivity|]. split; [apply grown_refl|].
    simpl. by rewrite (right_id_L ∅ (∪)).
  - destruct (Hx st) as (v & st1 & E1 & G1).
    destruct (IH (<[k := v]> d) st1) as (d' & st2 & E2 & G2 & Hdom).
    exists d', st2. split; [|split; [by eapply grown_trans|]].
    + cbn [json_members]. rewrite (run_bind_ok _ _ _ _ _ E1).
      fold (json_members json_value). exact E2.
    + rewrite Hdom, dom_insert_L. simpl. set_solver.
Qed.

Lemma json_value_loads j : loads j.
Proof.
  induction j as [| | | | |xs IH|ms IH] using json_nested_ind; intros st;
    try (eexists _, st; split; [reflexivity | apply grown_refl]).
  - destruct (json_elements_loads xs IH st) as (vs & st1 & E1 & G1).
    destruct (alloc_grown (OList vs) st1) as (l & E2 & _ & G2).
    eexists _, _. split; [|by eapply grown_trans].
    cbn [json_value]. by rewrite (run_bind_ok _ _ _ _ _ E1).
  - destruct (json_members_loads ms IH ∅ st) as (d & st1 & E1 & G1 & _).
    destruct (alloc_grown (ODict d) st1) as (l & E2 & _ & G2).
    eexists _, _. split; [|by eapply grown_trans].
    cbn [json_value]. by rewrite (run_bind_ok _ _ _ _ _ E1).
Qed.

(** An object loads as a new dict with the names of its members. *)
Lemma json_value_object ms st :
  ∃ l d st', json_value (JObj ms) st = (Ok (VRef l), st') ∧ grown st st' ∧
             heap st !! l = None ∧ heap st' !! l = Some (ODict d) ∧
             dom d = list_to_set ms.*1.
Proof.
  assert (Forall (λ m : string * json, loads m.2) ms) as Hall.
  { apply Forall_forall. intros m _. apply json_value_loads. }
  destruct (json_members_loads ms Hall ∅ st) as (d & st1 & E1 & G1 & Hdom).
  destruct (alloc_grown (ODict d) st1) as (l & E2 & Hfresh & G2).
  exists l, d, (set_heap (<[l := ODict d]> (heap st1)) st1).
  split; [cbn [json_value]; by rewrite (run_bind_ok _ _ _ _ _ E1)|].
  split; [by eapply grown_trans|].
  split.
  - destruct (heap st !! l) as [o|] eqn:Hl; [|done].
    rewrite (grown_lookup _ _ _ _ G1 Hl) in Hfresh. discriminate.
  - split; [apply lookup_insert_eq|].
    rewrite Hdom, dom_empty_L. by rewrite (left_id_L ∅ (∪)).
Qed.

(** Anything else loads as a value that is not a dict. *)
Lemma json_value_other j st :
  (∀ ms, j ≠ JObj ms) →
  ∃ v st', json_value j st = (Ok v, st') ∧ grown st st' ∧
           is_dict (heap st') v = false.
Proof.
  intros Hj. destruct j as [| | | | |xs|ms];
    try (eexists _, st; split; [reflexivity|]; split; [apply grown_refl|done]).
  - assert (Forall loads xs) as Hall.
    { apply Forall_forall. intros m _. apply json_value_loads. }
    destruct (json_elements_loads xs Hall st) as (vs & st1 & E1 & G1).
    destruct (alloc_grown (OList vs) st1) as (l & E2 & _ & G2).
    eexists _, _. split; [cbn [json_value]; by rewrite (run_bind_ok _ _ _ _ _ E1)|].
    split; [by eapply grown_trans|].
    unfold is_dict. simpl. by rewrite lookup_insert_eq.
  - by destruct (Hj ms).
Qed.

(* ===================================================================== *)
(** ** loadSettings *)
(* ===================================================================== *)

Lemma run_getitem_other st v k :
  is_dict (heap st) v = false → py_getitem v k st = (Raise TypeError, st).
Proof.
  unfold is_dict, py_getitem. destruct v as [| | | | |l]; try done.
  simpl. by destruct (heap st !! l) as [[?|?]|].
Qed.

(** On a document that is not a dict the reconciliation either finds
    every default key "in" it (a list or a string can do that) and does
    nothing, or stops on a TypeError. *)
Lemma addMissing_loop_other (items : list (string * value)) st v :
  settings st = Some v → is_dict (heap st) v = false →
  ∃ r, for_each items addMissing_body st = (r, st) ∧
       (r = Ok () ∨ r = Raise TypeError).
Proof.
  intros Hs Hv. induction items as [|[k x] items IH]; [exists (Ok ()); by split; [|left]|].
  cbn [for_each]. rewrite run_bind. unfold addMissing_body at 1.
  rewrite (run_bind_ok _ _ _ _ _ (run_attr_settings _ _ Hs)).
  rewrite run_bind. unfold py_contains at 1.
  assert (∃ r : result (), (Raise TypeError, st) = (r, st) ∧
                           (r = Ok () ∨ r = Raise TypeError)) as Hfail.
  { exists (Raise TypeError). split; [done | by right]. }
  destruct v as [|b|n|f|str|l]; try exact Hfail.
  - destruct (is_substring k str).
    + unfold mret at 1, M_ret at 1. exact IH.
    + rewrite (run_bind_ok _ _ _ _ _ (run_attr_settings _ _ Hs)). exact Hfail.
  - unfold is_dict in Hv. simpl in Hv.
    destruct (heap st !! l) as [[dd|xs]|] eqn:Hl; try done; try exact Hfail.
    destruct (existsb (is_str k) xs).
    + unfold mret at 1, M_ret at 1. exact IH.
    + rewrite (run_bind_ok _ _ _ _ _ (run_attr_settings _ _ Hs)).
      rewrite run_bind. unfold py_setitem. rewrite Hl. exact Hfail.
Qed.

(** The settings file holds no JSON object. *)
Definition corrupt (f : settings_file) : Prop :=
  f = Malformed ∨ ∃ j, f = Parsed j ∧ ∀ ms, j ≠ JObj ms.

Lemma loadSettings_absent st ld d :
  defaults_at st ld d →
  loadSettings Absent st
  = (Ok (VRef ld), set_settings (VRef ld) (set_settingsChanged false st)).
Proof.
  intros [Hd Hh]. unfold loadSettings.
  rewrite run_bind. unfold modify at 1.
  rewrite run_bind, run_bind. unfold attr at 1.
  cbn [defaults set_settingsChanged]. rewrite Hd. reflexivity.
Qed.

Lemma loadSettings_malformed st :
  loadSettings Malformed st
  = (Raise JSONDecodeError, set_settingsChanged false st).
Proof. reflexivity. Qed.

Lemma loadSettings_not_object st ld d j :
  defaults_at st ld d → (∀ ms, j ≠ JObj ms) →
  ∃ st', loadSettings (Parsed j) st = (Raise TypeError, st').
Proof.
  intros [Hd Hh] Hj. unfold loadSettings.
  rewrite run_bind. unfold modify at 1.
  set (st0 := set_settingsChanged false st).
  destruct (json_value_other j st0 Hj) as (v & st1 & E1 & G1 & Hv).
  set (st2 := set_settings v st1).
  assert (defaults_at st2 ld d) as [Hd2 Hh2].
  { destruct G1 as (Gd & _ & _ & _ & Gh). split.
    - simpl. by rewrite Gd.
    - simpl. eapply lookup_weaken; [exact Hh | exact Gh]. }
  assert (settings st2 = Some v) as Hs2 by reflexivity.
  assert (is_dict (heap st2) v = false) as Hv2 by exact Hv.
  rewrite run_bind, run_bind. unfold json_load. rewrite E1.
  rewrite run_bind. unfold modify at 1. fold st2.
  rewrite run_bind. unfold addMissingSettings.
  rewrite (run_bind_ok (attr defaults) _ st2 (VRef ld) st2)
    by (unfold attr; by rewrite Hd2).
  rewrite (run_bind_ok _ _ _ _ _ (run_items_dict _ _ _ Hh2)).
  destruct (addMissing_loop_other (map_to_list d) st2 v Hs2 Hv2)
    as (r & E & [->| ->]).
  - change (for_each (map_to_list d) _ st2) with
      (for_each (map_to_list d) addMissing_body st2). rewrite E.
    unfold removeOutdatedQuickKeys.
    rewrite (run_bind_ok _ _ _ _ _ (run_attr_settings _ _ Hs2)).
    rewrite (run_bind_raise _ _ _ _ _ (run_getitem_other st2 v "quickKeys" Hv2)).
    by eexists.
  - change (for_each (map_to_list d) _ st2) with
      (for_each (map_to_list d) addMissing_body st2). rewrite E.
    by eexists.
Qed.

(** C4. Corrupt settings: when the file is not JSON, or is JSON whose top
    level is not an object, [loadSettings] raises (JSONDecodeError in the
    first case, TypeError in the second: the two errors the specification
    calls CorruptSettingsError), nothing catches the exception and no
    document is returned; with no file at all it returns the defaults
    normally, so the two cases cannot be confused. *)
Theorem loadSettings_corrupt st ld d f :
  defaults_at st ld d → corrupt f →
  (∃ e st', loadSettings f st = (Raise e, st') ∧
            (e = JSONDecodeError ∨ e = TypeError)) ∧
  (∃ st', loadSettings Absent st = (Ok (VRef ld), st')).
Proof.
  intros Hd Hf. split.
  - destruct Hf as [->|(j & -> & Hj)].
    + exists JSONDecodeError, (set_settingsChanged false st).
      split; [apply loadSettings_malformed | by left].
    + destruct (loadSettings_not_object st ld d j Hd Hj) as (st' & E).
      exists TypeError, st'. split; [exact E | by right].
  - eexists. by eapply loadSettings_absent.
Qed.

Lemma loadSettings_corrupt_witness :
  (∃ e st', loadSettings (Parsed (JArr [JStr "quickKeys"])) new_manager
            = (Raise e, st') ∧
            (e = JSONDecodeError ∨ e = TypeError)) ∧
  (∃ st', loadSettings Absent new_manager = (Ok (VRef 6%positive), st')).
Proof.
  apply (loadSettings_corrupt new_manager 6%positive new_defaults).
  - split; vm_compute; reflexivity.
  - right. eexists. split; [reflexivity | discriminate].
Defined.

(** The end of [loadSettings]: the notice, then the document. *)
Definition announce : M value :=
  changed ← attr settingsChanged;
  (if changed : bool then showInfo notice else mret ());;
  attr settings.

Lemma run_announce st b v :
  settingsChanged st = Some b → settings st = Some v →
  ∃ st', announce st = (Ok v, st') ∧ heap st' = heap st.
Proof.
  intros Hc Hs. unfold announce.
  rewrite (run_bind_ok (attr settingsChanged) _ st b st)
    by (unfold attr; by rewrite Hc).
  destruct b.
  - exists (add_event (ShowInfo notice) st). split; [|reflexivity].
    rewrite run_bind. unfold showInfo, emit, modify.
    unfold attr. simpl. by rewrite Hs.
  - exists st. split; [|reflexivity]. rewrite run_bind. unfold mret, M_ret.
    unfold attr. by rewrite Hs.
Qed.

(** An object in the file: [loadSettings] comes to the pruning step with
    the document reconciled. *)
Lemma loadSettings_object st ld d ms :
  defaults_at st ld d →
  ∃ ls sj st1,
    grown (set_settingsChanged false st) st1 ∧
    heap st !! ls = None ∧ heap st1 !! ls = Some (ODict sj) ∧
    dom sj = list_to_set ms.*1 ∧
    loadSettings (Parsed (JObj ms)) st
    = (removeOutdatedQuickKeys ≫= λ _, announce)
        (reconciled ls sj d (set_settings (VRef ls) st1)).
Proof.
  intros [Hd Hh].
  destruct (json_value_object ms (set_settingsChanged false st))
    as (ls & sj & st1 & E1 & G1 & Hfresh & Hls & Hdom).
  exists ls, sj, st1. do 4 (split; [done|]).
  assert (defaults_at (set_settings (VRef ls) st1) ld d) as Hd2.
  { destruct G1 as (Gd & _ & _ & _ & Gh). split.
    - simpl. by rewrite Gd.
    - simpl. eapply lookup_weaken; [exact Hh | exact Gh]. }
  assert (settings_at (set_settings (VRef ls) st1) ls sj) as Hs2 by done.
  unfold loadSettings.
  rewrite run_bind. unfold modify at 1.
  rewrite run_bind, run_bind. unfold json_load. rewrite E1.
  rewrite run_bind. unfold modify at 1.
  rewrite run_bind.
  rewrite (addMissingSettings_run _ ls sj ld d Hs2 Hd2).
  reflexivity.
Qed.

(** C10. Reconciliation comes before pruning: when the file holds a JSON
    object, [loadSettings] reaches [removeOutdatedQuickKeys] in a state
    where the document is a dict and the lookup [settings['quickKeys']]
    that opens the pruning step succeeds; for an object without a
    ["quickKeys"] member it finds the mapping of the default schema.  When
    the entries of that mapping are well formed the whole load then
    returns the document. *)
Theorem reconciliation_before_pruning st ld d lq q ms :
  defaults_at st ld d → d !! "quickKeys" = Some (VRef lq) →
  heap st !! lq = Some (ODict q) →
  ∃ ls s st2,
    loadSettings (Parsed (JObj ms)) st
    = (removeOutdatedQuickKeys ≫= λ _, announce) st2 ∧
    settings_at st2 ls s ∧
    (∃ qv, (s0 ← attr settings; py_getitem s0 "quickKeys") st2 = (Ok qv, st2) ∧
           ("quickKeys" ∉ ms.*1 →
            qv = VRef lq ∧ heap st2 !! lq = Some (ODict q))) ∧
    ("quickKeys" ∉ ms.*1 → entries_are_dicts (heap st) lq q →
     ∃ st', loadSettings (Parsed (JObj ms)) st = (Ok (VRef ls), st')).
Proof.
  intros Hd Hq Hlq.
  destruct (loadSettings_object st ld d ms Hd)
    as (ls & sj & st1 & G1 & Hfresh & Hls & Hdom & E).
  set (st2 := reconciled ls sj d (set_settings (VRef ls) st1)) in *.
  assert (settings_at st2 ls (sj ∪ d)) as Hs2.
  { split; [reflexivity | apply lookup_insert_eq]. }
  assert (ls ≠ lq) as Hne by (intros ->; congruence).
  assert (∀ l o, heap st !! l = Some o → heap st2 !! l = Some o) as Hkeep.
  { intros l o Hl. unfold st2, reconciled. simpl.
    rewrite lookup_insert_ne by (intros ->; congruence).
    by apply (grown_lookup _ _ _ _ G1). }
  assert ("quickKeys" ∉ ms.*1 → (sj ∪ d) !! "quickKeys" = Some (VRef lq)) as Hdef.
  { intros Hnot. rewrite lookup_union.
    assert (sj !! "quickKeys" = None) as ->.
    { apply not_elem_of_dom. rewrite Hdom. by rewrite elem_of_list_to_set. }
    by rewrite Hq. }
  exists ls, (sj ∪ d), st2. split; [exact E|]. split; [exact Hs2|]. split.
  - assert (is_Some ((sj ∪ d) !! "quickKeys")) as [qv Hqv].
    { rewrite lookup_union. rewrite Hq. destruct (sj !! "quickKeys"); by eexists. }
    exists qv. split.
    + rewrite (run_bind_ok _ _ _ _ _ (run_attr_settings _ _ (proj1 Hs2))).
      by apply (run_getitem_dict _ _ _ _ _ (proj2 Hs2)).
    + intros Hnot. rewrite (Hdef Hnot) in Hqv. injection Hqv as <-.
      split; [done|]. by apply Hkeep.
  - intros Hnot Hent. rewrite E.
    assert (entries_are_dicts (heap st2) lq q) as Hent2.
    { intros k v Hk.
      destruct (entry_is_dict_inv _ _ _ (Hent k v Hk)) as (le & e & -> & Hle & He).
      unfold entry_is_dict. rewrite bool_decide_eq_true_2 by done.
      by rewrite (Hkeep _ _ He). }
    rewrite run_bind.
    rewrite (removeOutdatedQuickKeys_run st2 ls (sj ∪ d) lq q Hs2
               (Hdef Hnot) (Hkeep _ _ Hlq) Hent2).
    match goal with |- context [announce ?s] =>
      destruct (run_announce s
                  (if all_complete (complete (heap st2)) (map_to_list q)
                   then (if decide (dom d ⊆ dom sj) then false else true)
                   else true) (VRef ls)) as (st' & E' & _)
    end.
    + destruct G1 as (_ & _ & Hc1 & _). simpl in Hc1.
      unfold st2, reconciled. simpl. rewrite Hc1.
      by destruct (all_complete _ _), (decide (dom d ⊆ dom sj)).
    + reflexivity.
    + exists st'. exact E'.
Qed.

Lemma reconciliation_before_pruning_witness :
  ∃ ls s st2,
    loadSettings (Parsed (JObj [("extractKey", JStr "q")])) new_manager
    = (removeOutdatedQuickKeys ≫= λ _, announce) st2 ∧
    settings_at st2 ls s ∧
    (∃ qv, (s0 ← attr settings; py_getitem s0 "quickKeys") st2 = (Ok qv, st2) ∧
           ("quickKeys" ∉ [("extractKey", JStr "q")].*1 →
            qv = VRef 3%positive ∧ heap st2 !! 3%positive = Some (ODict ∅))) ∧
    ("quickKeys" ∉ [("extractKey", JStr "q")].*1 →
     entries_are_dicts (heap new_manager) 3%positive ∅ →
     ∃ st', loadSettings (Parsed (JObj [("extractKey", JStr "q")])) new_manager
            = (Ok (VRef ls), st')).
Proof.
  apply (reconciliation_before_pruning new_manager 6%positive new_defaults
           3%positive ∅ [("extractKey", JStr "q")]).
  - split; vm_compute; reflexivity.
  - vm_compute; reflexivity.
  - vm_compute; reflexivity.
Defined.

(* ===================================================================== *)
(** ** Computations that only call the host *)
(* ===================================================================== *)

(** [m] leaves the heap and the attributes alone, whatever it answers. *)
Definition only_events {A} (m : M A) : Prop :=
  ∀ st, ∃ evs,
    (m st).2 = State (heap st) (defaults st) (settings st)
                     (settingsChanged st) (events st ++ evs).

Lemma only_events_same {A} (m : M A) :
  (∀ st, (m st).2 = st) → only_events m.
Proof.
  intros H st. exists []. rewrite H, app_nil_r. by destruct st.
Qed.

Lemma only_events_bind {A B} (m : M A) (f : A → M B) :
  only_events m → (∀ a, only_events (f a)) → only_events (m ≫= f).
Proof.
  intros Hm Hf st. rewrite run_bind. destruct (Hm st) as [evs Hst].
  destruct (m st) as [[a|e] st1]; simpl in Hst; subst st1.
  - destruct (Hf a (State (heap st) (defaults st) (settings st)
                          (settingsChanged st) (events st ++ evs)))
      as [evs' ->].
    exists (evs ++ evs')%list. simpl. by rewrite app_assoc.
  - by exists evs.
Qed.

Lemma only_events_ret {A} (a : A) : only_events (mret a : M A).
Proof. by apply only_events_same. Qed.

Lemma only_events_emit e : only_events (emit e).
Proof. intros st. by exists [e]. Qed.

Lemma only_events_attr {A} (f : state → option A) : only_events (attr f).
Proof. apply only_events_same. intros st. unfold attr. by destruct (f st). Qed.

Lemma only_events_getitem c k : only_events (py_getitem c k).
Proof.
  apply only_events_same. intros st. unfold py_getitem.
  destruct c as [| | | | |l]; try done.
  destruct (heap st !! l) as [[d|xs]|]; try done. by destruct (d !! k).
Qed.

Lemma only_events_items c : only_events (py_items c).
Proof.
  apply only_events_same. intros st. unfold py_items.
  by destruct (deref (heap st) c) as [[d|xs]|].
Qed.

Lemma only_events_for_each {A} (xs : list A) (body : A → M unit) :
  (∀ x, only_events (body x)) → only_events (for_each xs body).
Proof.
  intros Hb. induction xs as [|x xs IH]; [apply only_events_ret|].
  apply only_events_bind; [apply Hb | intros _; exact IH].
Qed.

Create HintDb only_events.

#[local] Hint Resolve only_events_ret only_events_emit only_events_attr
  only_events_getitem only_events_items : only_events.

Ltac only_events :=
  repeat first
    [ apply only_events_bind; [|intros ?]
    | apply only_events_for_each; intros [? ?]
    | solve [auto with only_events] ].

Lemma only_events_loadMenuItems : only_events loadMenuItems.
Proof. unfold loadMenuItems. only_events. Qed.

Lemma only_events_setDefaultKeys : only_events setDefaultKeys.
Proof. unfold setDefaultKeys. only_events. Qed.

Lemma only_events_showInfo text : only_events (showInfo text).
Proof. apply only_events_emit. Qed.

(* ===================================================================== *)
(** ** setQuickKey *)
(* ===================================================================== *)

(** The three fields [setQuickKey] insists on are filled in. *)
Definition filled (w : QuickKeysTab) : bool :=
  negb (bool_decide (destDeckComboBox w = "")) &&
  negb (bool_decide (noteTypeComboBox w = "")) &&
  negb (bool_decide (regularKeyComboBox w = "")).

(** [setQuickKey] once the entry has passed the check. *)
Definition store_quickKey (w : QuickKeysTab) : M unit :=
  keyCombo ← keyCombo_of (quickKey_of w);
  s ← attr settings;
  quickKeys ← py_getitem s "quickKeys";
  entry ← alloc (ODict (quickKey_of w));
  py_setitem quickKeys keyCombo entry;;
  loadMenuItems;;
  showInfo ("New shortcut added: " +:+ keyCombo).

(** The key combination as the specification words it. *)
Definition combo (ctrl shift alt : bool) (regularKey : string) : string :=
  (if ctrl then "Ctrl+" else "") +:+ (if shift then "Shift+" else "") +:+
  (if alt then "Alt+" else "") +:+ regularKey.

Lemma setQuickKey_unfold w st :
  setQuickKey w st
  = if filled w then store_quickKey w st
    else (Ok (), add_event (ShowInfo incomplete) st).
Proof.
  unfold setQuickKey. rewrite run_bind.
  assert (for_break ["deckName"; "modelName"; "regularKey"]
            (λ k, v ← local_getitem (quickKey_of w) k;
                  filled ← truthy v;
                  if filled : bool then mret false
                  else showInfo incomplete;; mret true) st
          = if filled w then (Ok false, st)
            else (Ok true, add_event (ShowInfo incomplete) st)) as ->.
  { destruct w as [deck model field c s a key bg tx ee es pt].
    unfold filled. cbn [destDeckComboBox noteTypeComboBox regularKeyComboBox].
    destruct deck, model, key; vm_compute; reflexivity. }
  by destruct (filled w).
Qed.

Lemma keyCombo_of_run w st :
  keyCombo_of (quickKey_of w) st
  = (Ok (combo (ctrlKeyCheckBox w) (shiftKeyCheckBox w) (altKeyCheckBox w)
               (regularKeyComboBox w)), st).
Proof.
  destruct w as [deck model field c s a key bg tx ee es pt].
  cbn [ctrlKeyCheckBox shiftKeyCheckBox altKeyCheckBox regularKeyComboBox].
  destruct c, s, a; vm_compute; reflexivity.
Qed.

Lemma filled_spec w :
  filled w = false ↔
  destDeckComboBox w = "" ∨ noteTypeComboBox w = "" ∨ regularKeyComboBox w = "".
Proof.
  unfold filled. rewrite !andb_false_iff, !negb_false_iff.
  rewrite !bool_decide_eq_true. tauto.
Qed.

Lemma getitem_same c k st : (py_getitem c k st).2 = st.
Proof.
  unfold py_getitem. destruct c as [| | | | |l]; try done.
  destruct (heap st !! l) as [[d|xs]|]; try done. by destruct (d !! k).
Qed.

Lemma setitem_keeps c k v st l :
  is_Some (heap st !! l) → is_Some (heap (py_setitem c k v st).2 !! l).
Proof.
  intros Hl. unfold py_setitem. destruct c as [| | | | |l']; try done.
  destruct (heap st !! l') as [[d|xs]|] eqn:Hl'; try done. simpl.
  destruct (decide (l' = l)) as [->|Hne].
  - rewrite lookup_insert_eq. by eexists.
  - by rewrite lookup_insert_ne.
Qed.

Lemma fresh_loc st : heap st !! fresh (dom (heap st)) = None.
Proof. apply not_elem_of_dom, is_fresh. Qed.

Lemma store_quickKey_run w st ls s lq q :
  settings_at st ls s → s !! "quickKeys" = Some (VRef lq) →
  heap st !! lq = Some (ODict q) →
  ∃ r evs,
    store_quickKey w st
    = (r, State (<[lq := ODict (<[combo (ctrlKeyCheckBox w) (shiftKeyCheckBox w)
                                        (altKeyCheckBox w) (regularKeyComboBox w)
                                   := VRef (fresh (dom (heap st)))]> q)]>
                   (<[fresh (dom (heap st)) := ODict (quickKey_of w)]> (heap st)))
                (defaults st) (settings st) (settingsChanged st)
                (events st ++ evs)).
Proof.
  intros [Hs Hh] Hq Hlq. unfold store_quickKey.
  rewrite (run_bind_ok _ _ _ _ _ (keyCombo_of_run w st)).
  rewrite (run_bind_ok _ _ _ _ _ (run_attr_settings _ _ Hs)).
  rewrite (run_bind_ok _ _ _ _ _ (run_getitem_dict _ _ _ _ _ Hh Hq)).
  rewrite run_bind. unfold alloc at 1. cbv zeta.
  set (le := fresh (dom (heap st))).
  set (st1 := set_heap (<[le := ODict (quickKey_of w)]> (heap st)) st).
  assert (heap st1 !! lq = Some (ODict q)) as Hlq1.
  { unfold st1. simpl. rewrite lookup_insert_ne; [done|].
    intros Heq. pose proof (fresh_loc st) as Hf. fold le in Hf. congruence. }
  rewrite (run_bind_ok _ _ _ _ _ (run_setitem_dict _ _ _ _ _ Hlq1)).
  match goal with |- context [(loadMenuItems ≫= ?f) ?s] =>
    assert (only_events (loadMenuItems ≫= f)) as Hev
      by (apply only_events_bind;
          [apply only_events_loadMenuItems | intros _; apply only_events_showInfo]);
    destruct (Hev s) as [evs Hst];
    destruct ((loadMenuItems ≫= f) s) as [r st3]
  end.
  simpl in Hst. subst st3. by exists r, evs.
Qed.

Lemma store_quickKey_changes w st r st' :
  store_quickKey w st = (r, st') → r = Ok () → heap st' ≠ heap st.
Proof.
  intros H -> Heq. unfold store_quickKey in H.
  rewrite (run_bind_ok _ _ _ _ _ (keyCombo_of_run w st)) in H.
  rewrite run_bind in H. unfold attr at 1 in H.
  destruct (settings st) as [sv|]; [|discriminate].
  rewrite run_bind in H. pose proof (getitem_same sv "quickKeys" st) as Hg.
  destruct (py_getitem sv "quickKeys" st) as [[qv|e] st0]; [|discriminate].
  simpl in Hg. subst st0.
  rewrite run_bind in H. unfold alloc at 1 in H. cbv zeta in H.
  set (le := fresh (dom (heap st))) in H.
  set (st1 := set_heap (<[le := ODict (quickKey_of w)]> (heap st)) st) in H.
  rewrite run_bind in H.
  match type of H with context [py_setitem qv ?k ?v st1] =>
    pose proof (setitem_keeps qv k v st1 le) as Hk;
    destruct (py_setitem qv k v st1) as [[[]|e] st2]; [|discriminate]
  end.
  simpl in Hk.
  destruct Hk as [o Ho]; [unfold st1; simpl; rewrite lookup_insert_eq; by eexists|].
  match type of H with (?m st2) = _ =>
    assert (only_events m) as Hev
      by (apply only_events_bind;
          [apply only_events_loadMenuItems | intros _; apply only_events_showInfo]);
    destruct (Hev st2) as [evs Hst]; rewrite H in Hst
  end.
  simpl in Hst. subst st'. simpl in Heq.
  pose proof (fresh_loc st) as Hf. fold le in Hf. congruence.
Qed.

Lemma combo_example : combo true false true "7" = "Ctrl+Alt+7".
Proof. reflexivity. Qed.

(** A manager that has loaded its settings with no file in place. *)
Definition loaded_manager : state := (loadSettings Absent new_manager).2.

Definition shortcut_7 (deck : string) : QuickKeysTab :=
  {| destDeckComboBox := deck; noteTypeComboBox := "Basic";
     textFieldComboBox := "Front"; ctrlKeyCheckBox := true;
     shiftKeyCheckBox := false; altKeyCheckBox := true;
     regularKeyComboBox := "7"; bgColorComboBox := "Yellow";
     textColorComboBox := "Black"; quickKeyEditExtractCheckBox := false;
     quickKeyEditSourceCheckBox := false; quickKeyPlainTextCheckBox := false |}.

(** The same manager with a shortcut on Ctrl+Alt+7. *)
Definition one_shortcut : state := (setQuickKey (shortcut_7 "Default") loaded_manager).2.

(** C6. Key-combo derivation: the key combination of an entry is "Ctrl+"
    if [ctrl], then "Shift+" if [shift], then "Alt+" if [alt], then the
    regular key; [setQuickKey] stores the entry, a new object, under that
    string in [quickKeys], whatever was bound to it before, and leaves the
    other shortcuts alone. *)
Theorem setQuickKey_keyCombo w st ls s lq q :
  settings_at st ls s → s !! "quickKeys" = Some (VRef lq) →
  heap st !! lq = Some (ODict q) → filled w = true →
  let keyCombo := combo (ctrlKeyCheckBox w) (shiftKeyCheckBox w)
                        (altKeyCheckBox w) (regularKeyComboBox w) in
  keyCombo_of (quickKey_of w) st = (Ok keyCombo, st) ∧
  ∃ le q',
    heap st !! le = None ∧
    heap (setQuickKey w st).2 !! lq = Some (ODict q') ∧
    q' !! keyCombo = Some (VRef le) ∧
    (∀ k, k ≠ keyCombo → q' !! k = q !! k) ∧
    heap (setQuickKey w st).2 !! le = Some (ODict (quickKey_of w)).
Proof.
  intros Hs Hq Hlq Hw keyCombo. split; [apply keyCombo_of_run|].
  rewrite setQuickKey_unfold, Hw.
  destruct (store_quickKey_run w st ls s lq q Hs Hq Hlq) as (r & evs & ->).
  fold keyCombo. cbn [snd heap].
  exists (fresh (dom (heap st))), (<[keyCombo := VRef (fresh (dom (heap st)))]> q).
  pose proof (fresh_loc st) as Hf.
  assert (lq ≠ fresh (dom (heap st))) as Hne by (intros Heq; congruence).
  split; [exact Hf|].
  split; [apply lookup_insert_eq|].
  split; [apply lookup_insert_eq|].
  split; [intros k Hk; by apply lookup_insert_ne|].
  rewrite lookup_insert_ne by done. apply lookup_insert_eq.
Qed.

Lemma setQuickKey_keyCombo_witness :
  keyCombo_of (quickKey_of (shortcut_7 "Reading")) one_shortcut
    = (Ok "Ctrl+Alt+7", one_shortcut) ∧
  ∃ le q',
    heap one_shortcut !! le = None ∧
    heap (setQuickKey (shortcut_7 "Reading") one_shortcut).2 !! 3%positive
      = Some (ODict q') ∧
    q' !! "Ctrl+Alt+7" = Some (VRef le) ∧
    (∀ k, k ≠ "Ctrl+Alt+7" →
          q' !! k = ({[ "Ctrl+Alt+7" := VRef 7%positive ]} : gmap string value) !! k) ∧
    heap (setQuickKey (shortcut_7 "Reading") one_shortcut).2 !! le
      = Some (ODict (quickKey_of (shortcut_7 "Reading"))).
Proof.
  apply (setQuickKey_keyCombo (shortcut_7 "Reading") one_shortcut 6%positive
           (<["extractKey" := VStr "x"]> new_defaults) 3%positive
           {[ "Ctrl+Alt+7" := VRef 7%positive ]}).
  - split; vm_compute; reflexivity.
  - vm_compute; reflexivity.
  - vm_compute; reflexivity.
  - reflexivity.
Defined.

(** C7. Quick-key creation validation: [setQuickKey] turns the entry down,
    showing the message and leaving the manager otherwise exactly as it
    was, if and only if the deck, the note type or the regular key is
    empty; no other field matters. *)
Theorem setQuickKey_rejects w st :
  setQuickKey w st = (Ok (), add_event (ShowInfo incomplete) st) ↔
  destDeckComboBox w = "" ∨ noteTypeComboBox w = "" ∨ regularKeyComboBox w = "".
Proof.
  rewrite <- filled_spec, setQuickKey_unfold. destruct (filled w); split; try done.
  intros H. exfalso. by apply (store_quickKey_changes _ _ _ _ H).
Qed.

(** The rejection scenario of the specification. *)
Lemma empty_deck_rejected :
  let w := {| destDeckComboBox := ""; noteTypeComboBox := "Basic";
              textFieldComboBox := ""; ctrlKeyCheckBox := false;
              shiftKeyCheckBox := false; altKeyCheckBox := false;
              regularKeyComboBox := "A"; bgColorComboBox := "";
              textColorComboBox := ""; quickKeyEditExtractCheckBox := false;
              quickKeyEditSourceCheckBox := false;
              quickKeyPlainTextCheckBox := false |} in
  setQuickKey w one_shortcut = (Ok (), add_event (ShowInfo incomplete) one_shortcut) ∧
  heap (setQuickKey w one_shortcut).2 = heap one_shortcut.
Proof.
  intros w.
  assert (setQuickKey w one_shortcut
          = (Ok (), add_event (ShowInfo incomplete) one_shortcut)) as ->.
  { rewrite setQuickKey_unfold. reflexivity. }
  done.
Qed.

(* ===================================================================== *)
(** ** saveKeys *)
(* ===================================================================== *)

(** What the basic keys can be once stored. *)
Definition stored_keys : list string :=
  ["a"; "b"; "c"; "d"; "e"; "f"; "g"; "h"; "i"; "j"; "k"; "l"; "m"; "n";
   "o"; "p"; "q"; "r"; "s"; "t"; "u"; "v"; "w"; "x"; "y"; "z";
   "1"; "2"; "3"; "4"; "5"; "6"; "7"; "8"; "9"].

Lemma size_pair_le (a b : string) : (size ({[a; b]} : gset string) ≤ 2)%nat.
Proof.
  rewrite size_union_alt, size_singleton.
  pose proof (subseteq_size ({[b]} ∖ {[a]} : gset string) {[b]}) as H.
  rewrite size_singleton in H. assert (({[b]} ∖ {[a]} : gset string) ⊆ {[b]}) as Hsub.
  { apply subseteq_difference_l. reflexivity. }
  specialize (H Hsub). lia.
Qed.

Lemma conflict_iff (e h r : string) :
  (size (list_to_set [e; h; r] : gset string) < 3)%nat ↔
  ¬ (e ≠ h ∧ e ≠ r ∧ h ≠ r).
Proof.
  destruct (decide (e = h)) as [->|Heh].
  { split; [intros _ [? _]; done|]. intros _.
    assert ((list_to_set [h; h; r] : gset string) ⊆ {[h; r]}) as Hsub.
    { intros x. rewrite !elem_of_list_to_set, !elem_of_cons, elem_of_union,
        !elem_of_singleton, elem_of_nil. tauto. }
    apply subseteq_size in Hsub. pose proof (size_pair_le h r). lia. }
  destruct (decide (e = r)) as [->|Her].
  { split; [intros _ (_ & ? & _); done|]. intros _.
    assert ((list_to_set [r; h; r] : gset string) ⊆ {[r; h]}) as Hsub.
    { intros x. rewrite !elem_of_list_to_set, !elem_of_cons, elem_of_union,
        !elem_of_singleton, elem_of_nil. tauto. }
    apply subseteq_size in Hsub. pose proof (size_pair_le r h). lia. }
  destruct (decide (h = r)) as [->|Hhr].
  { split; [intros _ (_ & _ & ?); done|]. intros _.
    assert ((list_to_set [e; r; r] : gset string) ⊆ {[e; r]}) as Hsub.
    { intros x. rewrite !elem_of_list_to_set, !elem_of_cons, elem_of_union,
        !elem_of_singleton, elem_of_nil. tauto. }
    apply subseteq_size in Hsub. pose proof (size_pair_le e r). lia. }
  assert (size (list_to_set [e; h; r] : gset string) = 3) as ->.
  { rewrite size_list_to_set; [done|].
    repeat constructor; rewrite ?elem_of_cons, ?elem_of_nil; naive_solver. }
  split; [lia | tauto].
Qed.

Lemma lower_keys : Forall (λ x, lower x ∈ stored_keys) keys.
Proof. apply (bool_decide_unpack _). vm_compute. exact I. Qed.

(** C9. Basic keys are stored lowercased: when the three selected texts
    are pairwise distinct, [saveKeys] sets [extractKey], [highlightKey]
    and [removeKey] to their lowercase forms, which for the items of the
    combo boxes are lowercase letters or digits; when two of them coincide
    it changes no setting. *)
Theorem saveKeys_lowercase e h r st ls s :
  settings_at st ls s →
  (e ≠ h → e ≠ r → h ≠ r →
   saveKeys e h r st
   = (Ok (), put ls (<["removeKey" := VStr (lower r)]>
                       (<["highlightKey" := VStr (lower h)]>
                          (<["extractKey" := VStr (lower e)]> s))) st)) ∧
  (¬ (e ≠ h ∧ e ≠ r ∧ h ≠ r) →
   heap (saveKeys e h r st).2 = heap st ∧
   settings (saveKeys e h r st).2 = settings st) ∧
  (∀ x, x ∈ keys → lower x ∈ stored_keys).
Proof.
  intros Hs. split; [|split].
  - intros Heh Her Hhr. unfold saveKeys.
    rewrite bool_decide_eq_false_2 by (rewrite conflict_iff; tauto).
    rewrite (run_bind_ok _ _ _ _ _ (run_assign _ _ _ "extractKey" _ Hs)).
    rewrite (run_bind_ok _ _ _ _ _
               (run_assign _ _ _ "highlightKey" _
                  (settings_at_put _ _ _ (proj1 Hs)))).
    rewrite put_put.
    rewrite (run_assign _ _ _ "removeKey" _ (settings_at_put _ _ _ (proj1 Hs))).
    by rewrite put_put.
  - intros Hconf. unfold saveKeys.
    rewrite bool_decide_eq_true_2 by (by rewrite conflict_iff).
    assert (only_events (showInfo conflict;; setDefaultKeys)) as Hev.
    { apply only_events_bind;
        [apply only_events_showInfo | intros _; apply only_events_setDefaultKeys]. }
    destruct (Hev st) as [evs ->]. done.
  - apply Forall_forall, lower_keys.
Qed.

Lemma saveKeys_lowercase_witness :
  ("A" ≠ "B" → "A" ≠ "C" → "B" ≠ "C" →
   saveKeys "A" "B" "C" loaded_manager
   = (Ok (), put 6%positive
               (<["removeKey" := VStr (lower "C")]>
                  (<["highlightKey" := VStr (lower "B")]>
                     (<["extractKey" := VStr (lower "A")]> new_defaults)))
               loaded_manager)) ∧
  (¬ ("A" ≠ "B" ∧ "A" ≠ "C" ∧ "B" ≠ "C") →
   heap (saveKeys "A" "B" "C" loaded_manager).2 = heap loaded_manager ∧
   settings (saveKeys "A" "B" "C" loaded_manager).2 = settings loaded_manager) ∧
  (∀ x, x ∈ keys → lower x ∈ stored_keys).
Proof.
  apply (saveKeys_lowercase "A" "B" "C" loaded_manager 6%positive new_defaults).
  split; vm_compute; reflexivity.
Defined.

(* ===================================================================== *)
(** ** showDialog *)
(* ===================================================================== *)

Lemma bind_assign_put {B} k v (f : unit → M B) ls s st :
  settings st = Some (VRef ls) →
  (assign k v ≫= f) (put ls s st) = f () (put ls (<[k := v]> s) st).
Proof.
  intros Hs. rewrite run_bind.
  rewrite (run_assign _ ls s k v (settings_at_put _ _ _ Hs)).
  by rewrite put_put.
Qed.

Lemma assign_put k v ls s st :
  settings st = Some (VRef ls) →
  assign k v (put ls s st) = (Ok (), put ls (<[k := v]> s) st).
Proof.
  intros Hs. rewrite (run_assign _ ls s k v (settings_at_put _ _ _ Hs)).
  by rewrite put_put.
Qed.

Lemma if_assign (b : bool) k v1 v2 :
  (if b then assign k v1 else assign k v2) = assign k (if b then v1 else v2).
Proof. by destruct b. Qed.

(** The numeric settings after the [try] statement, and whether the
    warning was shown. *)
Definition saved_numbers (w : Dialog) (s : gmap string value)
  : gmap string value * bool :=
  match parse_int (soonValueEditBox w) with
  | None => (s, true)
  | Some a =>
      let s := <["soonValue" := VInt a]> s in
      match parse_int (laterValueEditBox w) with
      | None => (s, true)
      | Some b =>
          let s := <["laterValue" := VInt b]> s in
          match parse_int (extractValueEditBox w) with
          | None => (s, true)
          | Some c =>
              let s := <["extractValue" := VInt c]> s in
              match parse_int (widthEditBox w) with
              | None => (s, true)
              | Some d => (<["maxWidth" := VInt d]> s, false)
              end
          end
      end
  end.

Definition warned (b : bool) (st : state) : state :=
  if b then add_event (ShowWarning warning) st else st.

Lemma saveNumbers_run w ls s st :
  settings st = Some (VRef ls) →
  saveNumbers w (put ls s st)
  = (Ok (), put ls (saved_numbers w s).1 (warned (saved_numbers w s).2 st)).
Proof.
  intros Hs. unfold saveNumbers, try_except_ValueError, saved_numbers.
  rewrite run_bind. unfold py_int at 1.
  destruct (parse_int (soonValueEditBox w)) as [a|]; [|reflexivity].
  rewrite (bind_assign_put _ _ _ _ _ _ Hs).
  rewrite run_bind. unfold py_int at 1.
  destruct (parse_int (laterValueEditBox w)) as [b|]; [|reflexivity].
  rewrite (bind_assign_put _ _ _ _ _ _ Hs).
  rewrite run_bind. unfold py_int at 1.
  destruct (parse_int (extractValueEditBox w)) as [c|]; [|reflexivity].
  rewrite (bind_assign_put _ _ _ _ _ _ Hs).
  rewrite run_bind. unfold py_int at 1.
  destruct (parse_int (widthEditBox w)) as [d|]; [|reflexivity].
  by rewrite (assign_put _ _ _ _ _ Hs).
Qed.

(** The settings [showDialog] writes before the numeric fields. *)
Definition before_numbers (w : Dialog) (s : gmap string value)
  : gmap string value :=
  <["extractDeck" := if bool_decide (extractDeckComboBox w = "[Current Deck]")
                     then VNone else VStr (extractDeckComboBox w)]>
  (<["extractRandom" := VBool (extractRandomCheckBox w)]>
  (<["laterRandom" := VBool (laterRandomCheckBox w)]>
  (<["soonRandom" := VBool (soonRandomCheckBox w)]>
  (<["extractSchedule" := VBool (extractScheduleCheckBox w)]>
  (<["copyTitle" := VBool (copyTitleCheckBox w)]>
  (<["plainText" := VBool (plainTextCheckBox w)]>
  (<["editSource" := VBool (editSourceCheckBox w)]>
  (<["editExtract" := VBool (editExtractButton w)]>
  (<["pageScrollFactor" := percent (pageStepSpinBox w)]>
  (<["lineScrollFactor" := percent (lineStepSpinBox w)]>
  (<["generalZoom" := percent (generalZoomSpinBox w)]>
  (<["zoomStep" := percent (zoomStepSpinBox w)]> s)))))))))))).

(** The settings [showDialog] writes after them. *)
Definition after_numbers (w : Dialog) (s : gmap string value)
  : gmap string value :=
  <["limitWidthAll" := VBool (limitAllCardsButton w)]>
  (<["limitWidth" := VBool (limitAllCardsButton w || limitIrCardsButton w)]>
  (<["extractMethod" := if extractPercentButton w
                        then VStr "percent" else VStr "count"]>
  (<["laterMethod" := if laterPercentButton w
                      then VStr "percent" else VStr "count"]>
  (<["soonMethod" := if soonPercentButton w
                     then VStr "percent" else VStr "count"]> s)))).

Lemma showDialog_run w st ls s :
  settings_at st ls s →
  showDialog w st
  = (Ok (),
     put ls (after_numbers w (saved_numbers w (before_numbers w s)).1)
       (add_event ResetZoom
          (warned (saved_numbers w (before_numbers w s)).2 st))).
Proof.
  intros [Hs Hh]. rewrite <- (put_same ls s st Hh) at 1.
  unfold showDialog. rewrite !if_assign.
  rewrite !(bind_assign_put _ _ _ _ _ _ Hs).
  rewrite run_bind, (saveNumbers_run _ _ _ _ Hs).
  fold (before_numbers w s).
  set (n := saved_numbers w (before_numbers w s)).
  assert (settings (warned n.2 st) = Some (VRef ls)) as Hs'.
  { unfold warned. by destruct n.2. }
  rewrite !(bind_assign_put _ _ _ _ _ _ Hs').
  unfold after_numbers.
  destruct (limitAllCardsButton w), (limitIrCardsButton w);
    rewrite run_bind, (bind_assign_put _ _ _ _ _ _ Hs'),
      (assign_put _ _ _ _ _ Hs'); reflexivity.
Qed.

Lemma setting_put ls s st k :
  settings st = Some (VRef ls) → setting (put ls s st) k = s !! k.
Proof.
  intros Hs. unfold setting. cbn [settings put set_heap heap]. rewrite Hs.
  cbn [deref]. by rewrite lookup_insert_eq.
Qed.

Lemma setting_at st ls s k : settings_at st ls s → setting st k = s !! k.
Proof. intros [Hs Hh]. unfold setting. rewrite Hs. cbn [deref]. by rewrite Hh. Qed.




(** A dialog closed with "abc" in the field of the Later button and "5" in
    the field of the Soon button. *)
Definition half_typed : Dialog :=
  {| zoomStepSpinBox := 10; generalZoomSpinBox := 100;
     lineStepSpinBox := 5; pageStepSpinBox := 50;
     editExtractButton := false; editSourceCheckBox := false;
     plainTextCheckBox := false; copyTitleCheckBox := false;
     extractScheduleCheckBox := true; soonRandomCheckBox := true;
     laterRandomCheckBox := true; extractRandomCheckBox := true;
     extractDeckComboBox := "[Current Deck]";
     soonValueEditBox := "5"; laterValueEditBox := "abc";
     extractValueEditBox := "30"; widthEditBox := "600";
     soonPercentButton := true; laterPercentButton := true;
     extractPercentButton := true;
     limitAllCardsButton := false; limitIrCardsButton := true |}.




(* ===================================================================== *)
(** ** Loading with no file in place *)
(* ===================================================================== *)

(** The first load of a new manager returns the default schema of
    [__init__], raises no flag and shows no notice. *)
Lemma first_load_returns_defaults version url :
  ∃ st',
    loadSettings Absent (init version url blank).2 = (Ok (VRef 6%positive), st') ∧
    heap st' !! 6%positive
      = Some (ODict (list_to_map
                       (default_items version url (VRef 1%positive)
                          (VRef 2%positive) (VRef 3%positive)
                          (VRef 4%positive) (VRef 5%positive)))) ∧
    heap st' !! 1%positive = Some (OList [VStr "iframe"; VStr "script"]) ∧
    heap st' !! 2%positive = Some (ODict ∅) ∧
    heap st' !! 3%positive = Some (ODict ∅) ∧
    heap st' !! 4%positive = Some (ODict ∅) ∧
    heap st' !! 5%positive = Some (ODict ∅) ∧
    settingsChanged st' = Some false ∧
    events st' = [AddHook "unloadProfile"].
Proof.
  eexists. split; [vm_compute; reflexivity|].
  repeat split; vm_compute; reflexivity.
Qed.

(** The document returned is the defaults object itself, not a copy. *)
Lemma load_absent_aliases st ld d :
  defaults_at st ld d →
  settings (loadSettings Absent st).2 = defaults (loadSettings Absent st).2.
Proof.
  intros Hd. rewrite (loadSettings_absent st ld d Hd). simpl. by destruct Hd as [-> _].
Qed.

(** C8, the failing run. One manager serves every profile of the host.
    Its first profile has no settings file, the user saves the basic keys
    A, B, C, then a second profile without a settings file is loaded: the
    document returned binds [extractKey] to "a", where the default schema
    of [__init__] has "x".  No flag is raised and no notice shown. *)
Theorem second_load_not_default :
  let st1 := (loadSettings Absent new_manager).2 in
  let st2 := (saveKeys "A" "B" "C" st1).2 in
  ∃ doc st3,
    loadSettings Absent st2 = (Ok doc, st3) ∧
    doc = VRef 6%positive ∧
    setting st3 "extractKey" = Some (VStr "a") ∧
    new_defaults !! "extractKey" = Some (VStr "x") ∧
    settingsChanged st3 = Some false ∧
    events st3 = [AddHook "unloadProfile"].
Proof.
  eexists _, _. split; [vm_compute; reflexivity|].
  repeat split; vm_compute; reflexivity.
Qed.

(** The same sharing one level down: a file without ["quickKeys"] receives
    the mapping of the default schema by reference, a shortcut saved in
    that profile lands in the schema, and the next profile without a file
    starts with it. *)
Lemma default_quickKeys_shared :
  let st1 := (loadSettings (Parsed (JObj [("extractKey", JStr "q")])) new_manager).2 in
  let st2 := (setQuickKey (shortcut_7 "Default") st1).2 in
  ∃ doc st3 q,
    loadSettings Absent st2 = (Ok doc, st3) ∧
    setting st3 "quickKeys" = Some (VRef 3%positive) ∧
    heap st3 !! 3%positive = Some (ODict q) ∧
    is_Some (q !! "Ctrl+Alt+7").
Proof.
  eexists _, _, _. split; [vm_compute; reflexivity|].
  split; [vm_compute; reflexivity|].
  split; [vm_compute; reflexivity|].
  vm_compute. by eexists.
Qed.

(* ===================================================================== *)
(** ** loadMenuItems *)
(* ===================================================================== *)

Definition menuName : string := "Read::Quick Keys".

(** The field [f] of the entry [v], when [v] is a dict that has it. *)
Definition entry_field (h : gmap loc object) (v : value) (f : string)
  : option value :=
  match deref h v with
  | Some (ODict e) => e !! f
  | _ => None
  end.

(** The menu item [loadMenuItems] adds for a shortcut. *)
Definition menu_item (h : gmap loc object) (kv : string * value) : event :=
  AddMenuItem menuName
    (default VNone (entry_field h kv.2 "modelName"))
    (default VNone (entry_field h kv.2 "deckName"))
    kv.2 kv.1.

(** The entry names its note type and its deck. *)
Definition named (h : gmap loc object) (v : value) : bool :=
  bool_decide (is_Some (entry_field h v "modelName")) &&
  bool_decide (is_Some (entry_field h v "deckName")).

Definition menu_body : string * value → M unit := λ '(keyCombo, quickKey),
  modelName ← py_getitem quickKey "modelName";
  deckName ← py_getitem quickKey "deckName";
  emit (AddMenuItem menuName modelName deckName quickKey keyCombo).

Definition more_events (evs : list event) (st : state) : state :=
  State (heap st) (defaults st) (settings st) (settingsChanged st)
        (events st ++ evs).

Lemma more_events_nil st : more_events [] st = st.
Proof. destruct st. unfold more_events. simpl. by rewrite app_nil_r. Qed.

Lemma more_events_app evs evs' st :
  more_events evs' (more_events evs st) = more_events (evs ++ evs') st.
Proof. unfold more_events. simpl. by rewrite app_assoc. Qed.

Lemma named_inv h v :
  named h v = true →
  ∃ l e m d, v = VRef l ∧ h !! l = Some (ODict e) ∧
             e !! "modelName" = Some m ∧ e !! "deckName" = Some d.
Proof.
  unfold named, entry_field. intros [H1 H2]%andb_true_iff.
  apply bool_decide_eq_true_1 in H1, H2.
  destruct v as [| | | | |l]; try by destruct H1.
  simpl in *. destruct (h !! l) as [[e|xs]|] eqn:Hl; try by destruct H1.
  destruct H1 as [m Hm], H2 as [d Hd]. by exists l, e, m, d.
Qed.

Lemma menu_loop (items : list (string * value)) st :
  Forall (λ kv, named (heap st) kv.2 = true) items →
  for_each items menu_body st
  = (Ok (), more_events (menu_item (heap st) <$> items) st).
Proof.
  revert st. induction items as [|[k v] items IH]; intros st Hall.
  - simpl. by rewrite more_events_nil.
  - apply Forall_cons in Hall as [Hv Hall]. simpl in Hv.
    destruct (named_inv _ _ Hv) as (l & e & m & d & -> & Hl & Hm & Hd).
    cbn [for_each]. rewrite run_bind. unfold menu_body at 1.
    rewrite (run_bind_ok _ _ _ _ _ (run_getitem_dict _ _ _ _ _ Hl Hm)).
    rewrite (run_bind_ok _ _ _ _ _ (run_getitem_dict _ _ _ _ _ Hl Hd)).
    unfold emit, modify.
    change (add_event ?e st) with (more_events [e] st).
    rewrite (IH (more_events _ st)) by exact Hall.
    rewrite more_events_app. do 2 f_equal. cbn [fmap list_fmap app].
    do 2 f_equal. unfold menu_item, entry_field. simpl. by rewrite Hl, Hm, Hd.
Qed.

Lemma loadMenuItems_run st ls s lq q :
  settings_at st ls s → s !! "quickKeys" = Some (VRef lq) →
  heap st !! lq = Some (ODict q) →
  map_Forall (λ _ v, named (heap st) v = true) q →
  loadMenuItems st
  = (Ok (), more_events ([ClearMenu menuName]
                         ++ (menu_item (heap st) <$> map_to_list q)
                         ++ [SetMenuVisibility menuName]) st).
Proof.
  intros [Hs Hh] Hq Hlq Hall. unfold loadMenuItems.
  rewrite run_bind. unfold emit at 1, modify at 1.
  change (add_event ?e st) with (more_events [e] st).
  set (st1 := more_events [ClearMenu "Read::Quick Keys"] st).
  rewrite (run_bind_ok (attr settings) _ st1 (VRef ls) st1)
    by (unfold attr; simpl; by rewrite Hs).
  rewrite (run_bind_ok _ _ st1 _ _ (run_getitem_dict st1 _ _ _ _ Hh Hq)).
  rewrite (run_bind_ok _ _ st1 _ _ (run_items_dict st1 _ _ Hlq)).
  rewrite run_bind.
  assert (for_each (map_to_list q) menu_body st1
          = (Ok (), more_events (menu_item (heap st1) <$> map_to_list q) st1))
    as Hloop.
  { apply menu_loop. apply Forall_forall. intros [k v] Hin.
    apply elem_of_map_to_list in Hin. by apply (Hall k v). }
  change (for_each (map_to_list q) _ st1)
    with (for_each (map_to_list q) menu_body st1).
  rewrite Hloop. unfold emit, modify.
  change (add_event ?e ?s) with (more_events [e] s).
  unfold st1. by rewrite !more_events_app.
Qed.






Lemma has_fields_elem e ks k :
  has_fields e ks = true → k ∈ ks → is_Some (e !! k).
Proof.
  unfold has_fields. rewrite forallb_forall. intros H Hk.
  apply list_elem_of_In in Hk. specialize (H k Hk).
  by apply bool_decide_eq_true_1 in H.
Qed.

Lemma complete_named h v : complete h v = true → named h v = true.
Proof.
  unfold complete, named, entry_field.
  destruct (deref h v) as [[e|xs]|]; try discriminate. intros He.
  rewrite !bool_decide_eq_true_2; [done| |];
    apply (has_fields_elem e required); try done;
    unfold required; rewrite !elem_of_cons; auto 20.
Qed.

Lemma entries_settings_apart st ls s lq q :
  settings_at st ls s → s !! "quickKeys" = Some (VRef lq) →
  heap st !! lq = Some (ODict q) → entries_are_dicts (heap st) lq q → ls ≠ lq.
Proof.
  intros [_ Hh] Hq Hlq Hent ->. rewrite Hlq in Hh. injection Hh as ->.
  destruct (entry_is_dict_inv _ _ _ (Hent _ _ Hq)) as (le & e & [= <-] & Hle & _).
  by apply Hle.
Qed.

(** The state [removeOutdatedQuickKeys] leaves. *)
Definition pruned_state (lq : loc) (q : gmap string value) (st : state) : state :=
  State (<[lq := ODict (pruned (complete (heap st)) (map_to_list q) q)]> (heap st))
        (defaults st) (settings st)
        (if all_complete (complete (heap st)) (map_to_list q)
         then settingsChanged st else Some true)
        (events st).

Lemma pruned_entries st lq q k v :
  entries_are_dicts (heap st) lq q →
  pruned (complete (heap st)) (map_to_list q) q !! k = Some v →
  q !! k = Some v ∧
  complete (heap (pruned_state lq q st)) v = true ∧
  entry_is_dict (heap (pruned_state lq q st)) lq v = true.
Proof.
  intros Hent [Hk Hc]%pruned_map_lookup. split; [done|].
  pose proof (Hent k v Hk) as Hd.
  destruct (entry_is_dict_inv _ _ _ Hd) as (le & e & -> & Hle & He).
  unfold complete, entry_is_dict, pruned_state in *. cbn [heap deref] in *.
  rewrite lookup_insert_ne by done. rewrite He in *.
  split; [exact Hc|]. by rewrite bool_decide_eq_true_2.
Qed.



(* ===================================================================== *)
(** ** More on removeOutdatedQuickKeys *)
(* ===================================================================== *)

Lemma pruned_all_complete c (q : gmap string value) :
  (∀ k v, q !! k = Some v → c v = true) →
  pruned c (map_to_list q) q = q ∧ all_complete c (map_to_list q) = true.
Proof.
  intros Hall. split; [|by apply all_complete_spec].
  apply map_eq. intros k. apply option_eq. intros v.
  rewrite pruned_map_lookup. split; [by intros [? _]|].
  intros Hk. split; [done | by eapply Hall].
Qed.

(** X4. Pruning is idempotent: after one run of [removeOutdatedQuickKeys]
    on a document whose shortcuts are dicts, a second run changes nothing,
    not even the flag. *)
Theorem removeOutdatedQuickKeys_idempotent st ls s lq q :
  settings_at st ls s → s !! "quickKeys" = Some (VRef lq) →
  heap st !! lq = Some (ODict q) → entries_are_dicts (heap st) lq q →
  ∃ st1,
    removeOutdatedQuickKeys st = (Ok (), st1) ∧
    removeOutdatedQuickKeys st1 = (Ok (), st1).
Proof.
  intros Hs Hq Hlq Hent.
  pose proof (entries_settings_apart _ _ _ _ _ Hs Hq Hlq Hent) as Hne.
  exists (pruned_state lq q st).
  split; [by eapply removeOutdatedQuickKeys_run|].
  set (q' := pruned (complete (heap st)) (map_to_list q) q).
  assert (settings_at (pruned_state lq q st) ls s) as Hs1.
  { destruct Hs as [Hs Hh]. split; [exact Hs|].
    unfold pruned_state. simpl. by rewrite lookup_insert_ne. }
  assert (heap (pruned_state lq q st) !! lq = Some (ODict q')) as Hlq1
    by apply lookup_insert_eq.
  assert (entries_are_dicts (heap (pruned_state lq q st)) lq q') as Hent1.
  { intros k v Hk. by destruct (pruned_entries st lq q k v Hent Hk) as (_ & _ & ?). }
  rewrite (removeOutdatedQuickKeys_run _ ls s lq q' Hs1 Hq Hlq1 Hent1).
  destruct (pruned_all_complete (complete (heap (pruned_state lq q st))) q')
    as [-> ->].
  { intros k v Hk. by destruct (pruned_entries st lq q k v Hent Hk) as (_ & ? & _). }
  f_equal. unfold pruned_state. simpl. f_equal. fold q'.
  by rewrite insert_insert_eq.
Qed.

Lemma removeOutdatedQuickKeys_idempotent_witness :
  ∃ st1,
    removeOutdatedQuickKeys two_shortcuts = (Ok (), st1) ∧
    removeOutdatedQuickKeys st1 = (Ok (), st1).
Proof.
  apply (removeOutdatedQuickKeys_idempotent two_shortcuts 10%positive
           {[ "quickKeys" := VRef 9%positive ]} 9%positive
           {[ "A" := VRef 7%positive; "B" := VRef 8%positive ]}).
  - split; vm_compute; reflexivity.
  - vm_compute; reflexivity.
  - vm_compute; reflexivity.
  - apply (bool_decide_unpack _). vm_compute. exact I.
Defined.

(** A value [in] cannot be asked of: None, a bool, a number. *)
Definition scalar (v : value) : bool :=
  match v with
  | VNone | VBool _ | VInt _ | VFloat _ => true
  | VStr _ | VRef _ => false
  end.

(** X5. A shortcut that is no container stops the migration: when
    [quickKeys] is not empty and its entries are None, booleans or numbers
    (as in a file with ["quickKeys": {"A": 5}]), [removeOutdatedQuickKeys]
    raises TypeError and changes nothing. *)
Theorem removeOutdatedQuickKeys_scalar_entry st ls s lq q :
  settings_at st ls s → s !! "quickKeys" = Some (VRef lq) →
  heap st !! lq = Some (ODict q) → q ≠ ∅ →
  map_Forall (λ _ v, scalar v = true) q →
  removeOutdatedQuickKeys st = (Raise TypeError, st).
Proof.
  intros [Hs Hh] Hq Hlq Hne Hall. unfold removeOutdatedQuickKeys.
  rewrite (run_bind_ok _ _ _ _ _ (run_attr_settings _ _ Hs)).
  rewrite (run_bind_ok _ _ _ _ _ (run_getitem_dict _ _ _ _ _ Hh Hq)).
  unfold py_copy_items.
  rewrite (run_bind_ok _ _ _ _ _ (run_items_dict _ _ _ Hlq)).
  destruct (map_to_list q) as [|[k v] items] eqn:Hitems.
  { by apply map_to_list_empty_iff in Hitems. }
  assert (scalar v = true) as Hv.
  { apply (Hall k). apply elem_of_map_to_list. rewrite Hitems. left. }
  cbn [for_each]. rewrite run_bind.
  unfold required. cbn [for_break]. do 2 rewrite run_bind.
  unfold py_contains. by destruct v.
Qed.

Definition scalar_shortcut : state :=
  ((v ← json_load (JObj [("quickKeys", JObj [("A", JInt 5)])]);
    modify (set_settings v)) new_manager).2.

Lemma removeOutdatedQuickKeys_scalar_entry_witness :
  removeOutdatedQuickKeys scalar_shortcut = (Raise TypeError, scalar_shortcut).
Proof.
  apply (removeOutdatedQuickKeys_scalar_entry scalar_shortcut 8%positive
           {[ "quickKeys" := VRef 7%positive ]} 7%positive
           {[ "A" := VInt 5 ]}).
  - split; vm_compute; reflexivity.
  - vm_compute; reflexivity.
  - vm_compute; reflexivity.
  - intros H. apply (f_equal (λ m : gmap string value, m !! "A")) in H.
    vm_compute in H. discriminate.
  - apply (bool_decide_unpack _). vm_compute. exact I.
Defined.

(* ===================================================================== *)
(** ** More on setQuickKey *)
(* ===================================================================== *)

Lemma quickKey_of_complete w : has_fields (quickKey_of w) required = true.
Proof. destruct w. vm_compute. reflexivity. Qed.

Lemma quickKey_of_named h l w :
  h !! l = Some (ODict (quickKey_of w)) → named h (VRef l) = true.
Proof.
  intros Hl. apply complete_named. unfold complete. cbn [deref]. rewrite Hl.
  apply quickKey_of_complete.
Qed.

(** The heap once the entry of [w] is stored under its key combination. *)
Definition stored (w : QuickKeysTab) (lq : loc) (q : gmap string value)
    (h : gmap loc object) : gmap loc object :=
  <[lq := ODict (<[combo (ctrlKeyCheckBox w) (shiftKeyCheckBox w)
                         (altKeyCheckBox w) (regularKeyComboBox w)
                    := VRef (fresh (dom h))]> q)]>
    (<[fresh (dom h) := ODict (quickKey_of w)]> h).

Lemma stored_old w lq q h l o :
  h !! l = Some o → l ≠ lq → stored w lq q h !! l = Some o.
Proof.
  intros Hl Hne. unfold stored. rewrite lookup_insert_ne by done.
  rewrite lookup_insert_ne; [done|]. intros <-.
  assert (h !! fresh (dom h) = None) by apply not_elem_of_dom, is_fresh.
  congruence.
Qed.

Lemma stored_entry w lq q h :
  h !! lq = Some (ODict q) →
  stored w lq q h !! fresh (dom h) = Some (ODict (quickKey_of w)).
Proof.
  intros Hlq. unfold stored. rewrite lookup_insert_ne; [apply lookup_insert_eq|].
  intros ->. assert (h !! fresh (dom h) = None) by apply not_elem_of_dom, is_fresh.
  congruence.
Qed.

Lemma stored_entries w lq q h :
  h !! lq = Some (ODict q) → entries_are_dicts h lq q →
  entries_are_dicts (stored w lq q h) lq
    (<[combo (ctrlKeyCheckBox w) (shiftKeyCheckBox w)
             (altKeyCheckBox w) (regularKeyComboBox w)
        := VRef (fresh (dom h))]> q).
Proof.
  intros Hlq Hent k v Hk. apply lookup_insert_Some in Hk as [[_ <-]|[_ Hk]].
  - unfold entry_is_dict. rewrite (stored_entry w lq q h Hlq).
    rewrite bool_decide_eq_true_2; [done|]. intros Heq.
    assert (h !! fresh (dom h) = None) by apply not_elem_of_dom, is_fresh.
    congruence.
  - destruct (entry_is_dict_inv _ _ _ (Hent k v Hk)) as (le & e & -> & Hle & He).
    unfold entry_is_dict. rewrite (stored_old w lq q h le _ He Hle).
    by rewrite bool_decide_eq_true_2.
Qed.

(** X6. A shortcut saved in the dialog survives the migration: after
    [setQuickKey] has stored an entry, [removeOutdatedQuickKeys] returns
    normally and the entry is still bound to its key combination. *)
Theorem setQuickKey_survives_pruning w st ls s lq q :
  settings_at st ls s → s !! "quickKeys" = Some (VRef lq) →
  heap st !! lq = Some (ODict q) → entries_are_dicts (heap st) lq q →
  filled w = true →
  ∃ st2 q2 le,
    removeOutdatedQuickKeys (setQuickKey w st).2 = (Ok (), st2) ∧
    heap st2 !! lq = Some (ODict q2) ∧
    q2 !! combo (ctrlKeyCheckBox w) (shiftKeyCheckBox w)
               (altKeyCheckBox w) (regularKeyComboBox w) = Some (VRef le) ∧
    heap st2 !! le = Some (ODict (quickKey_of w)).
Proof.
  intros Hs Hq Hlq Hent Hw.
  pose proof (entries_settings_apart _ _ _ _ _ Hs Hq Hlq Hent) as Hne.
  rewrite setQuickKey_unfold, Hw.
  destruct (store_quickKey_run w st ls s lq q Hs Hq Hlq) as (r & evs & ->).
  cbn [snd]. fold (stored w lq q (heap st)).
  set (st1 := State (stored w lq q (heap st)) (defaults st) (settings st)
                    (settingsChanged st) (events st ++ evs)).
  set (kc := combo _ _ _ _).
  set (le := fresh (dom (heap st))).
  assert (settings_at st1 ls s) as Hs1.
  { destruct Hs as [Hs Hh]. split; [exact Hs|].
    by apply (stored_old w lq q (heap st) ls). }
  assert (heap st1 !! lq = Some (ODict (<[kc := VRef le]> q))) as Hlq1
    by apply lookup_insert_eq.
  pose proof (stored_entries w lq q (heap st) Hlq Hent) as Hent1.
  fold kc le in Hent1.
  eexists _, _, le.
  split; [by apply (removeOutdatedQuickKeys_run st1 ls s lq _ Hs1 Hq Hlq1)|].
  cbn [heap]. split; [apply lookup_insert_eq|].
  assert (heap st1 !! le = Some (ODict (quickKey_of w))) as Hle
    by apply (stored_entry w lq q (heap st) Hlq).
  split.
  - apply pruned_map_lookup. split; [apply lookup_insert_eq|].
    unfold complete. cbn [deref]. rewrite Hle. apply quickKey_of_complete.
  - rewrite lookup_insert_ne; [exact Hle|].
    intros Heq. pose proof (fresh_loc st) as Hf. fold le in Hf. congruence.
Qed.

Lemma setQuickKey_survives_pruning_witness :
  ∃ st2 q2 le,
    removeOutdatedQuickKeys (setQuickKey (shortcut_7 "Reading") one_shortcut).2
      = (Ok (), st2) ∧
    heap st2 !! 3%positive = Some (ODict q2) ∧
    q2 !! combo (ctrlKeyCheckBox (shortcut_7 "Reading"))
               (shiftKeyCheckBox (shortcut_7 "Reading"))
               (altKeyCheckBox (shortcut_7 "Reading"))
               (regularKeyComboBox (shortcut_7 "Reading")) = Some (VRef le) ∧
    heap st2 !! le = Some (ODict (quickKey_of (shortcut_7 "Reading"))).
Proof.
  apply (setQuickKey_survives_pruning (shortcut_7 "Reading") one_shortcut
           6%positive (<["extractKey" := VStr "x"]> new_defaults) 3%positive
           {[ "Ctrl+Alt+7" := VRef 7%positive ]}).
  - split; vm_compute; reflexivity.
  - vm_compute; reflexivity.
  - vm_compute; reflexivity.
  - apply (bool_decide_unpack _). vm_compute. exact I.
  - reflexivity.
Defined.

Lemma stored_named w lq q h :
  h !! lq = Some (ODict q) → entries_are_dicts h lq q →
  map_Forall (λ _ v, named h v = true) q →
  map_Forall (λ _ v, named (stored w lq q h) v = true)
    (<[combo (ctrlKeyCheckBox w) (shiftKeyCheckBox w)
             (altKeyCheckBox w) (regularKeyComboBox w)
        := VRef (fresh (dom h))]> q).
Proof.
  intros Hlq Hent Hall k v Hk. apply lookup_insert_Some in Hk as [[_ <-]|[_ Hk]].
  - apply (quickKey_of_named _ _ w). by apply stored_entry.
  - destruct (entry_is_dict_inv _ _ _ (Hent k v Hk)) as (le & e & -> & Hle & He).
    specialize (Hall k _ Hk). unfold named, entry_field in *. cbn [deref] in *.
    rewrite (stored_old w lq q h le _ He Hle). by rewrite He in Hall.
Qed.

Lemma setQuickKey_run_ok w st ls s lq q :
  settings_at st ls s → s !! "quickKeys" = Some (VRef lq) →
  heap st !! lq = Some (ODict q) → entries_are_dicts (heap st) lq q →
  map_Forall (λ _ v, named (heap st) v = true) q →
  filled w = true →
  let keyCombo := combo (ctrlKeyCheckBox w) (shiftKeyCheckBox w)
                        (altKeyCheckBox w) (regularKeyComboBox w) in
  let h' := stored w lq q (heap st) in
  setQuickKey w st
  = (Ok (),
     more_events
       ([ClearMenu menuName]
        ++ (menu_item h' <$> map_to_list (<[keyCombo := VRef (fresh (dom (heap st)))]> q))
        ++ [SetMenuVisibility menuName;
            ShowInfo ("New shortcut added: " +:+ keyCombo)])
       (set_heap h' st)).
Proof.
  intros Hs Hq Hlq Hent Hall Hw keyCombo h'.
  pose proof (entries_settings_apart _ _ _ _ _ Hs Hq Hlq Hent) as Hne.
  rewrite setQuickKey_unfold, Hw. unfold store_quickKey.
  rewrite (run_bind_ok _ _ _ _ _ (keyCombo_of_run w st)). fold keyCombo.
  rewrite (run_bind_ok _ _ _ _ _ (run_attr_settings _ _ (proj1 Hs))).
  rewrite (run_bind_ok _ _ _ _ _ (run_getitem_dict _ _ _ _ _ (proj2 Hs) Hq)).
  rewrite run_bind. unfold alloc at 1. cbv zeta.
  set (le := fresh (dom (heap st))).
  set (st1 := set_heap (<[le := ODict (quickKey_of w)]> (heap st)) st).
  assert (heap st1 !! lq = Some (ODict q)) as Hlq1.
  { unfold st1. simpl. rewrite lookup_insert_ne; [done|].
    intros Heq. pose proof (fresh_loc st) as Hf. fold le in Hf. congruence. }
  rewrite (run_bind_ok _ _ _ _ _ (run_setitem_dict _ _ _ _ _ Hlq1)).
  assert (put lq (<[keyCombo := VRef le]> q) st1 = set_heap h' st) as -> by reflexivity.
  assert (settings_at (set_heap h' st) ls s) as Hs2.
  { destruct Hs as [Hs Hh]. split; [exact Hs|].
    by apply (stored_old w lq q (heap st) ls). }
  rewrite run_bind.
  rewrite (loadMenuItems_run (set_heap h' st) ls s lq
             (<[keyCombo := VRef le]> q) Hs2 Hq).
  - unfold showInfo, emit, modify.
    change (add_event ?e ?s) with (more_events [e] s).
    rewrite more_events_app. do 2 f_equal.
    by rewrite <- !app_assoc.
  - apply lookup_insert_eq.
  - by apply stored_named.
Qed.



(** X8. Defaults are shared, not copied: when the document lacks
    ["quickKeys"], [addMissingSettings] binds it to the very mapping of
    the default schema, so a shortcut then saved with [setQuickKey] is
    written into the default schema as well. *)
Theorem default_quickKeys_receive_shortcut w st ls s ld d lq q :
  settings_at st ls s → defaults_at st ld d →
  s !! "quickKeys" = None → d !! "quickKeys" = Some (VRef lq) →
  heap st !! lq = Some (ODict q) → ld ≠ lq → filled w = true →
  let keyCombo := combo (ctrlKeyCheckBox w) (shiftKeyCheckBox w)
                        (altKeyCheckBox w) (regularKeyComboBox w) in
  ∃ st1 q',
    addMissingSettings st = (Ok (), st1) ∧
    setting st1 "quickKeys" = Some (VRef lq) ∧
    defaults_at (setQuickKey w st1).2 ld d ∧
    heap (setQuickKey w st1).2 !! lq = Some (ODict q') ∧
    is_Some (q' !! keyCombo).
Proof.
  intros Hs Hd Hsq Hdq Hlq Hne Hw keyCombo.
  assert (ls ≠ ld) as Hsd.
  { intros ->. destruct Hs as [_ Hh], Hd as [_ Hh']. congruence. }
  set (st1 := reconciled ls s d st).
  assert (settings_at st1 ls (s ∪ d)) as Hs1.
  { destruct Hs as [Hs Hh]. split; [exact Hs | apply lookup_insert_eq]. }
  assert ((s ∪ d) !! "quickKeys" = Some (VRef lq)) as Hq1.
  { rewrite lookup_union, Hsq, Hdq. reflexivity. }
  assert (∃ qx, heap st1 !! lq = Some (ODict qx)) as [qx Hlq1].
  { unfold st1, reconciled. simpl. destruct (decide (ls = lq)) as [->|Hn].
    - rewrite lookup_insert_eq. by eexists.
    - rewrite lookup_insert_ne by done. by eexists. }
  exists st1, (<[keyCombo := VRef (fresh (dom (heap st1)))]> qx).
  split; [by eapply addMissingSettings_run|].
  split; [by rewrite (setting_at st1 ls (s ∪ d))|].
  rewrite setQuickKey_unfold, Hw.
  destruct (store_quickKey_run w st1 ls (s ∪ d) lq qx Hs1 Hq1 Hlq1)
    as (r & evs & ->).
  cbn [snd]. split; [|split].
  - destruct Hd as [Hd Hh]. split; [exact Hd|]. cbn [heap].
    rewrite lookup_insert_ne by done.
    assert (heap st1 !! ld = Some (ODict d)) as Hld.
    { unfold st1, reconciled. simpl. by rewrite lookup_insert_ne. }
    rewrite lookup_insert_ne; [exact Hld|].
    intros Heq. pose proof (fresh_loc st1) as Hf. congruence.
  - cbn [heap]. apply lookup_insert_eq.
  - rewrite lookup_insert_eq. by eexists.
Qed.

Lemma default_quickKeys_receive_shortcut_witness :
  let w := shortcut_7 "Default" in
  let keyCombo := combo (ctrlKeyCheckBox w) (shiftKeyCheckBox w)
                        (altKeyCheckBox w) (regularKeyComboBox w) in
  ∃ st1 q',
    addMissingSettings sparse_manager = (Ok (), st1) ∧
    setting st1 "quickKeys" = Some (VRef 3%positive) ∧
    defaults_at (setQuickKey w st1).2 6%positive new_defaults ∧
    heap (setQuickKey w st1).2 !! 3%positive = Some (ODict q') ∧
    is_Some (q' !! keyCombo).
Proof.
  apply (default_quickKeys_receive_shortcut (shortcut_7 "Default")
           sparse_manager 7%positive {[ "extractKey" := VStr "q" ]}
           6%positive new_defaults 3%positive ∅).
  - split; vm_compute; reflexivity.
  - split; vm_compute; reflexivity.
  - vm_compute; reflexivity.
  - vm_compute; reflexivity.
  - vm_compute; reflexivity.
  - discriminate.
  - reflexivity.
Defined.

(* ===================================================================== *)
(** ** The quick-keys tab: deleteQuickKey, updateQuickKeysTab *)
(* ===================================================================== *)

(** Calls on the widgets of the tab.  The signals they set off are the
    toolkit's affair. *)
Inductive widget_call :=
  | SetCurrentIndex (widget : string) (index : Z)
  | SetChecked (widget : string) (checked : value)
  | RemoveComboBoxItem (comboBox : string) (text : string).

Section quick_keys_tab.

(** The toolkit, as it answers a call. *)
Variable widget : widget_call → M unit.

Definition clearQuickKeysTab : M unit :=
  widget (SetCurrentIndex "quickKeysComboBox" 0);;
  widget (SetCurrentIndex "destDeckComboBox" 0);;
  widget (SetCurrentIndex "noteTypeComboBox" 0);;
  widget (SetCurrentIndex "textFieldComboBox" 0);;
  widget (SetChecked "ctrlKeyCheckBox" (VBool false));;
  widget (SetChecked "shiftKeyCheckBox" (VBool false));;
  widget (SetChecked "altKeyCheckBox" (VBool false));;
  widget (SetCurrentIndex "regularKeyComboBox" 0);;
  widget (SetChecked "quickKeyEditExtractCheckBox" (VBool false));;
  widget (SetChecked "quickKeyEditSourceCheckBox" (VBool false));;
  widget (SetChecked "quickKeyPlainTextCheckBox" (VBool false)).

(** The argument is the current text of [quickKeysComboBox]. *)
Definition deleteQuickKey (quickKeysComboBox : string) : M unit :=
  let quickKey := quickKeysComboBox in
  if negb (bool_decide (quickKey = "")) then
    s ← attr settings;
    quickKeys ← py_getitem s "quickKeys";
    py_pop quickKeys quickKey;;
    widget (RemoveComboBoxItem "quickKeysComboBox" quickKey);;
    clearQuickKeysTab;;
    loadMenuItems
  else mret ().

Definition updateQuickKeysTab (quickKeysComboBox : string) : M unit :=
  let quickKey := quickKeysComboBox in
  if negb (bool_decide (quickKey = "")) then
    s ← attr settings;
    quickKeys ← py_getitem s "quickKeys";
    model ← py_getitem quickKeys quickKey;
    v ← py_getitem model "deckName";
    emit (SetComboBoxItem "destDeckComboBox" v);;
    v ← py_getitem model "modelName";
    emit (SetComboBoxItem "noteTypeComboBox" v);;
    v ← py_getitem model "fieldName";
    emit (SetComboBoxItem "textFieldComboBox" v);;
    v ← py_getitem model "ctrl";
    widget (SetChecked "ctrlKeyCheckBox" v);;
    v ← py_getitem model "shift";
    widget (SetChecked "shiftKeyCheckBox" v);;
    v ← py_getitem model "alt";
    widget (SetChecked "altKeyCheckBox" v);;
    v ← py_getitem model "regularKey";
    emit (SetComboBoxItem "regularKeyComboBox" v);;
    v ← py_getitem model "editExtract";
    widget (SetChecked "quickKeyEditExtractCheckBox" v);;
    v ← py_getitem model "editSource";
    widget (SetChecked "quickKeyEditSourceCheckBox" v);;
    v ← py_getitem model "plainText";
    widget (SetChecked "quickKeyPlainTextCheckBox" v)
  else clearQuickKeysTab.

End quick_keys_tab.

(** The toolkit takes every call and touches nothing of the manager. *)
Definition answers (widget : widget_call → M unit) : Prop :=
  ∀ c st, ∃ evs, widget c st = (Ok (), more_events evs st).

(** [m] returns normally from a state with heap [h], adding host calls
    only. *)
Definition quiet (h : gmap loc object) (m : M unit) : Prop :=
  ∀ st, heap st = h → ∃ evs, m st = (Ok (), more_events evs st).

Lemma quiet_seq h (m : M unit) (k : M unit) :
  quiet h m → quiet h k → quiet h (m;; k).
Proof.
  intros Hm Hk st Hst. destruct (Hm st Hst) as [evs E].
  destruct (Hk (more_events evs st)) as [evs' E']; [exact Hst|].
  exists (evs ++ evs')%list. rewrite (run_bind_ok _ _ _ _ _ E), E'.
  by rewrite more_events_app.
Qed.

Lemma quiet_widget h widget c : answers widget → quiet h (widget c).
Proof. intros Hw st _. apply Hw. Qed.

Lemma quiet_emit h e : quiet h (emit e).
Proof. intros st _. by exists [e]. Qed.

Lemma quiet_field h l e f v (k : value → M unit) :
  h !! l = Some (ODict e) → e !! f = Some v → quiet h (k v) →
  quiet h (py_getitem (VRef l) f ≫= k).
Proof.
  intros Hl Hf Hk st Hst.
  assert (heap st !! l = Some (ODict e)) as Hl' by (by rewrite Hst).
  rewrite (run_bind_ok _ _ _ _ _ (run_getitem_dict _ _ _ _ _ Hl' Hf)).
  by apply Hk.
Qed.

Lemma quiet_clear h widget : answers widget → quiet h (clearQuickKeysTab widget).
Proof.
  intros Hw. unfold clearQuickKeysTab.
  repeat (apply quiet_seq; [by apply quiet_widget|]). by apply quiet_widget.
Qed.

(** [m] ends with [r] from a state with heap [h], adding host calls
    only. *)
Definition outcome (h : gmap loc object) (r : result ()) (m : M unit) : Prop :=
  ∀ st, heap st = h → ∃ evs, m st = (r, more_events evs st).

Lemma outcome_seq h r (m k : M unit) :
  quiet h m → outcome h r k → outcome h r (m;; k).
Proof.
  intros Hm Hk st Hst. destruct (Hm st Hst) as [evs E].
  destruct (Hk (more_events evs st)) as [evs' E']; [exact Hst|].
  exists (evs ++ evs')%list. rewrite (run_bind_ok _ _ _ _ _ E), E'.
  by rewrite more_events_app.
Qed.

Lemma outcome_field h r l e f v (k : value → M unit) :
  h !! l = Some (ODict e) → e !! f = Some v → outcome h r (k v) →
  outcome h r (py_getitem (VRef l) f ≫= k).
Proof.
  intros Hl Hf Hk st Hst.
  assert (heap st !! l = Some (ODict e)) as Hl' by (by rewrite Hst).
  rewrite (run_bind_ok _ _ _ _ _ (run_getitem_dict _ _ _ _ _ Hl' Hf)).
  by apply Hk.
Qed.

Lemma outcome_field_missing h l e f (k : value → M unit) :
  h !! l = Some (ODict e) → e !! f = None →
  outcome h (Raise (KeyError f)) (py_getitem (VRef l) f ≫= k).
Proof.
  intros Hl Hf st Hst. exists []. rewrite more_events_nil.
  rewrite run_bind. unfold py_getitem. by rewrite Hst, Hl, Hf.
Qed.

Lemma combo_nonempty c s a key : key ≠ "" → combo c s a key ≠ "".
Proof. intros Hk. unfold combo. destruct c, s, a; simpl; by destruct key. Qed.

Lemma filled_key w : filled w = true → regularKeyComboBox w ≠ "".
Proof.
  unfold filled. rewrite !andb_true_iff, !negb_true_iff.
  intros [_ H]. by apply bool_decide_eq_false_1 in H.
Qed.

Lemma deleteQuickKey_run widget st ls s lq q k v :
  answers widget →
  settings_at st ls s → s !! "quickKeys" = Some (VRef lq) →
  heap st !! lq = Some (ODict q) → entries_are_dicts (heap st) lq q →
  map_Forall (λ _ v, named (heap st) v = true) q →
  k ≠ "" → q !! k = Some v →
  ∃ evs, deleteQuickKey widget k st
         = (Ok (), more_events evs (put lq (delete k q) st)).
Proof.
  intros Hw Hs Hq Hlq Hent Hall Hk Hkv.
  pose proof (entries_settings_apart _ _ _ _ _ Hs Hq Hlq Hent) as Hne.
  unfold deleteQuickKey. rewrite bool_decide_eq_false_2 by done. cbn [negb].
  rewrite (run_bind_ok _ _ _ _ _ (run_attr_settings _ _ (proj1 Hs))).
  rewrite (run_bind_ok _ _ _ _ _ (run_getitem_dict _ _ _ _ _ (proj2 Hs) Hq)).
  rewrite (run_bind_ok _ _ _ _ _ (run_pop_dict _ _ _ _ _ Hlq Hkv)).
  set (st1 := put lq (delete k q) st).
  destruct (Hw (RemoveComboBoxItem "quickKeysComboBox" k) st1) as [evs1 E1].
  rewrite (run_bind_ok _ _ _ _ _ E1).
  destruct (quiet_clear (heap st1) widget Hw (more_events evs1 st1)) as [evs2 E2];
    [done|].
  rewrite (run_bind_ok _ _ _ _ _ E2). rewrite more_events_app.
  rewrite (loadMenuItems_run _ ls s lq (delete k q)).
  - rewrite more_events_app. by eexists.
  - destruct Hs as [Hs Hh]. split; [exact Hs|]. cbn [heap more_events].
    unfold st1. cbn [heap put set_heap]. by rewrite lookup_insert_ne.
  - exact Hq.
  - cbn [heap more_events]. apply lookup_insert_eq.
  - intros k' v' Hk'. apply lookup_delete_Some in Hk' as [_ Hk'].
    destruct (entry_is_dict_inv _ _ _ (Hent k' v' Hk')) as (le & e & -> & Hle & He).
    specialize (Hall k' _ Hk'). unfold named, entry_field in *.
    cbn [deref heap more_events] in *. unfold st1. cbn [heap put set_heap].
    by rewrite lookup_insert_ne.
Qed.

(** X9. [deleteQuickKey] with nothing to delete: with no shortcut selected
    (empty text) it does nothing at all; with a text that is no key of
    [quickKeys] it raises KeyError before anything is changed or any
    widget touched. *)
Theorem deleteQuickKey_nothing_to_delete widget st ls s lq q k :
  settings_at st ls s → s !! "quickKeys" = Some (VRef lq) →
  heap st !! lq = Some (ODict q) → k ≠ "" → q !! k = None →
  deleteQuickKey widget "" st = (Ok (), st) ∧
  deleteQuickKey widget k st = (Raise (KeyError k), st).
Proof.
  intros [Hs Hh] Hq Hlq Hk Hnone. split; [reflexivity|].
  unfold deleteQuickKey. rewrite bool_decide_eq_false_2 by done. cbn [negb].
  rewrite (run_bind_ok _ _ _ _ _ (run_attr_settings _ _ Hs)).
  rewrite (run_bind_ok _ _ _ _ _ (run_getitem_dict _ _ _ _ _ Hh Hq)).
  rewrite run_bind. unfold py_pop. by rewrite Hlq, Hnone.
Qed.

Lemma deleteQuickKey_nothing_to_delete_witness :
  deleteQuickKey (λ _, mret ()) "" one_shortcut = (Ok (), one_shortcut) ∧
  deleteQuickKey (λ _, mret ()) "Ctrl+8" one_shortcut
  = (Raise (KeyError "Ctrl+8"), one_shortcut).
Proof.
  apply (deleteQuickKey_nothing_to_delete (λ _, mret ()) one_shortcut
           6%positive (<["extractKey" := VStr "x"]> new_defaults) 3%positive
           {[ "Ctrl+Alt+7" := VRef 7%positive ]}).
  - split; vm_compute; reflexivity.
  - vm_compute; reflexivity.
  - vm_compute; reflexivity.
  - discriminate.
  - vm_compute; reflexivity.
Defined.

(** X10. [deleteQuickKey] removes the selected shortcut and nothing else:
    on a document whose shortcuts are dicts naming their note type and
    deck, it returns normally, [quickKeys] loses exactly the selected key,
    and no other object or attribute changes. *)
Theorem deleteQuickKey_removes widget st ls s lq q k v :
  answers widget →
  settings_at st ls s → s !! "quickKeys" = Some (VRef lq) →
  heap st !! lq = Some (ODict q) → entries_are_dicts (heap st) lq q →
  map_Forall (λ _ v, named (heap st) v = true) q →
  k ≠ "" → q !! k = Some v →
  ∃ evs, deleteQuickKey widget k st
         = (Ok (), more_events evs (put lq (delete k q) st)).
Proof. apply deleteQuickKey_run. Qed.

Lemma answers_nothing : answers (λ _, mret ()).
Proof. intros c st. exists []. by rewrite more_events_nil. Qed.

Lemma deleteQuickKey_removes_witness :
  ∃ evs, deleteQuickKey (λ _, mret ()) "Ctrl+Alt+7" one_shortcut
         = (Ok (), more_events evs
                     (put 3%positive
                        (delete "Ctrl+Alt+7"
                           ({[ "Ctrl+Alt+7" := VRef 7%positive ]}
                            : gmap string value))
                        one_shortcut)).
Proof.
  apply (deleteQuickKey_removes (λ _, mret ()) one_shortcut
           6%positive (<["extractKey" := VStr "x"]> new_defaults) 3%positive
           {[ "Ctrl+Alt+7" := VRef 7%positive ]} "Ctrl+Alt+7" (VRef 7%positive)).
  - apply answers_nothing.
  - split; vm_compute; reflexivity.
  - vm_compute; reflexivity.
  - vm_compute; reflexivity.
  - apply (bool_decide_unpack _). vm_compute. exact I.
  - apply (bool_decide_unpack _). vm_compute. exact I.
  - discriminate.
  - vm_compute; reflexivity.
Defined.

(** X11. Saving a shortcut and deleting it again: after [setQuickKey]
    and [deleteQuickKey] on the same key combination, [quickKeys] is what
    it was before without that combination (a shortcut that was
    overwritten does not come back), and every object that existed before
    is unchanged. *)
Theorem setQuickKey_then_delete widget w st ls s lq q :
  answers widget →
  settings_at st ls s → s !! "quickKeys" = Some (VRef lq) →
  heap st !! lq = Some (ODict q) → entries_are_dicts (heap st) lq q →
  map_Forall (λ _ v, named (heap st) v = true) q →
  filled w = true →
  let keyCombo := combo (ctrlKeyCheckBox w) (shiftKeyCheckBox w)
                        (altKeyCheckBox w) (regularKeyComboBox w) in
  ∃ st',
    deleteQuickKey widget keyCombo (setQuickKey w st).2 = (Ok (), st') ∧
    heap st' !! lq = Some (ODict (delete keyCombo q)) ∧
    (∀ l o, l ≠ lq → heap st !! l = Some o → heap st' !! l = Some o).
Proof.
  intros Hw Hs Hq Hlq Hent Hall Hfilled keyCombo.
  pose proof (entries_settings_apart _ _ _ _ _ Hs Hq Hlq Hent) as Hne.
  rewrite (setQuickKey_run_ok w st ls s lq q Hs Hq Hlq Hent Hall Hfilled).
  cbn [snd]. fold keyCombo.
  set (le := fresh (dom (heap st))).
  set (h' := stored w lq q (heap st)).
  match goal with |- context [more_events ?evs (set_heap h' st)] =>
    set (st1 := more_events evs (set_heap h' st)) end.
  assert (heap st1 = h') as Hh1 by reflexivity.
  destruct (deleteQuickKey_run widget st1 ls s lq (<[keyCombo := VRef le]> q)
              keyCombo (VRef le) Hw) as [evs E].
  - destruct Hs as [Hs Hh]. split; [exact Hs|]. rewrite Hh1.
    by apply (stored_old w lq q (heap st) ls).
  - exact Hq.
  - rewrite Hh1. apply lookup_insert_eq.
  - rewrite Hh1. by apply stored_entries.
  - rewrite Hh1. by apply stored_named.
  - apply combo_nonempty. by apply filled_key.
  - apply lookup_insert_eq.
  - eexists. split; [exact E|]. cbn [heap more_events put set_heap].
    split.
    + rewrite lookup_insert_eq. by rewrite delete_insert_eq.
    + intros l o Hl Ho. rewrite lookup_insert_ne by done. rewrite Hh1.
      by apply stored_old.
Qed.

Lemma setQuickKey_then_delete_witness :
  let w := shortcut_7 "Reading" in
  let keyCombo := combo (ctrlKeyCheckBox w) (shiftKeyCheckBox w)
                        (altKeyCheckBox w) (regularKeyComboBox w) in
  ∃ st',
    deleteQuickKey (λ _, mret ()) keyCombo (setQuickKey w one_shortcut).2
      = (Ok (), st') ∧
    heap st' !! 3%positive
      = Some (ODict (delete keyCombo
                       ({[ "Ctrl+Alt+7" := VRef 7%positive ]}
                        : gmap string value))) ∧
    (∀ l o, l ≠ 3%positive → heap one_shortcut !! l = Some o →
            heap st' !! l = Some o).
Proof.
  apply (setQuickKey_then_delete (λ _, mret ()) (shortcut_7 "Reading")
           one_shortcut 6%positive (<["extractKey" := VStr "x"]> new_defaults)
           3%positive {[ "Ctrl+Alt+7" := VRef 7%positive ]}).
  - apply answers_nothing.
  - split; vm_compute; reflexivity.
  - vm_compute; reflexivity.
  - vm_compute; reflexivity.
  - apply (bool_decide_unpack _). vm_compute. exact I.
  - apply (bool_decide_unpack _). vm_compute. exact I.
  - reflexivity.
Defined.

(** The fields [updateQuickKeysTab] reads before [plainText]. *)
Definition shown_fields : list string :=
  ["deckName"; "modelName"; "fieldName"; "ctrl"; "shift"; "alt";
   "regularKey"; "editExtract"; "editSource"].

Lemma updateQuickKeysTab_entry widget st ls s lq q k le e r :
  answers widget →
  settings_at st ls s → s !! "quickKeys" = Some (VRef lq) →
  heap st !! lq = Some (ODict q) → k ≠ "" →
  q !! k = Some (VRef le) → heap st !! le = Some (ODict e) →
  has_fields e shown_fields = true →
  (match e !! "plainText" with
   | Some _ => r = Ok ()
   | None => r = Raise (KeyError "plainText")
   end) →
  ∃ evs, updateQuickKeysTab widget k st = (r, more_events evs st).
Proof.
  intros Hw [Hs Hh] Hq Hlq Hk Hkv Hle He Hr.
  unfold updateQuickKeysTab. rewrite bool_decide_eq_false_2 by done. cbn [negb].
  rewrite (run_bind_ok _ _ _ _ _ (run_attr_settings _ _ Hs)).
  rewrite (run_bind_ok _ _ _ _ _ (run_getitem_dict _ _ _ _ _ Hh Hq)).
  rewrite (run_bind_ok _ _ _ _ _ (run_getitem_dict _ _ _ _ _ Hlq Hkv)).
  assert (∀ f, f ∈ shown_fields → is_Some (e !! f)) as Hf
    by (intros f; by apply has_fields_elem).
  destruct (Hf "deckName") as [v1 H1]; [unfold shown_fields; set_solver|].
  destruct (Hf "modelName") as [v2 H2]; [unfold shown_fields; set_solver|].
  destruct (Hf "fieldName") as [v3 H3]; [unfold shown_fields; set_solver|].
  destruct (Hf "ctrl") as [v4 H4]; [unfold shown_fields; set_solver|].
  destruct (Hf "shift") as [v5 H5]; [unfold shown_fields; set_solver|].
  destruct (Hf "alt") as [v6 H6]; [unfold shown_fields; set_solver|].
  destruct (Hf "regularKey") as [v7 H7]; [unfold shown_fields; set_solver|].
  destruct (Hf "editExtract") as [v8 H8]; [unfold shown_fields; set_solver|].
  destruct (Hf "editSource") as [v9 H9]; [unfold shown_fields; set_solver|].
  assert (outcome (heap st) r
            (v ← py_getitem (VRef le) "deckName";
             emit (SetComboBoxItem "destDeckComboBox" v);;
             v ← py_getitem (VRef le) "modelName";
             emit (SetComboBoxItem "noteTypeComboBox" v);;
             v ← py_getitem (VRef le) "fieldName";
             emit (SetComboBoxItem "textFieldComboBox" v);;
             v ← py_getitem (VRef le) "ctrl";
             widget (SetChecked "ctrlKeyCheckBox" v);;
             v ← py_getitem (VRef le) "shift";
             widget (SetChecked "shiftKeyCheckBox" v);;
             v ← py_getitem (VRef le) "alt";
             widget (SetChecked "altKeyCheckBox" v);;
             v ← py_getitem (VRef le) "regularKey";
             emit (SetComboBoxItem "regularKeyComboBox" v);;
             v ← py_getitem (VRef le) "editExtract";
             widget (SetChecked "quickKeyEditExtractCheckBox" v);;
             v ← py_getitem (VRef le) "editSource";
             widget (SetChecked "quickKeyEditSourceCheckBox" v);;
             v ← py_getitem (VRef le) "plainText";
             widget (SetChecked "quickKeyPlainTextCheckBox" v))) as Hout.
  { repeat first
      [ eapply outcome_field; [exact Hle | eassumption |]
      | apply outcome_seq; [first [apply quiet_emit | by apply quiet_widget]|] ].
    destruct (e !! "plainText") as [v10|] eqn:H10; subst r.
    - eapply outcome_field; [exact Hle | exact H10 |]. by apply quiet_widget.
    - by eapply outcome_field_missing. }
  by apply Hout.
Qed.




Lemma quickKey_of_shown w :
  has_fields (quickKey_of w) shown_fields = true ∧
  is_Some (quickKey_of w !! "plainText").
Proof. destruct w. split; [vm_compute; reflexivity|]. vm_compute. by eexists. Qed.

(** X13. A shortcut just saved can be shown: after [setQuickKey] has
    stored an entry, [updateQuickKeysTab] on its key combination finds all
    ten fields it reads and returns normally, leaving the manager as it
    is. *)
Theorem updateQuickKeysTab_after_setQuickKey widget w st ls s lq q :
  answers widget →
  settings_at st ls s → s !! "quickKeys" = Some (VRef lq) →
  heap st !! lq = Some (ODict q) → ls ≠ lq → filled w = true →
  let keyCombo := combo (ctrlKeyCheckBox w) (shiftKeyCheckBox w)
                        (altKeyCheckBox w) (regularKeyComboBox w) in
  ∃ evs, updateQuickKeysTab widget keyCombo (setQuickKey w st).2
         = (Ok (), more_events evs (setQuickKey w st).2).
Proof.
  intros Hw Hs Hq Hlq Hne Hfilled keyCombo.
  rewrite setQuickKey_unfold, Hfilled.
  destruct (store_quickKey_run w st ls s lq q Hs Hq Hlq) as (r & evs & ->).
  cbn [snd]. fold keyCombo. fold (stored w lq q (heap st)).
  set (st1 := State _ _ _ _ _).
  destruct (quickKey_of_shown w) as [Hshown [p Hp]].
  assert (settings_at st1 ls s) as Hs1.
  { destruct Hs as [Hs Hh]. split; [exact Hs|].
    by apply (stored_old w lq q (heap st) ls). }
  assert (heap st1 !! lq
          = Some (ODict (<[keyCombo := VRef (fresh (dom (heap st)))]> q))) as Hlq1
    by apply lookup_insert_eq.
  assert (keyCombo ≠ "") as Hk by (apply combo_nonempty; by apply filled_key).
  assert (heap st1 !! fresh (dom (heap st)) = Some (ODict (quickKey_of w))) as Hle
    by (by apply (stored_entry w lq q (heap st))).
  refine (updateQuickKeysTab_entry widget st1 ls s lq _ keyCombo _
            (quickKey_of w) (Ok ()) Hw Hs1 Hq Hlq1 Hk _ Hle Hshown _).
  - apply lookup_insert_eq.
  - by rewrite Hp.
Qed.

Lemma updateQuickKeysTab_after_setQuickKey_witness :
  let w := shortcut_7 "Reading" in
  let keyCombo := combo (ctrlKeyCheckBox w) (shiftKeyCheckBox w)
                        (altKeyCheckBox w) (regularKeyComboBox w) in
  ∃ evs, updateQuickKeysTab (λ _, mret ()) keyCombo (setQuickKey w one_shortcut).2
         = (Ok (), more_events evs (setQuickKey w one_shortcut).2).
Proof.
  apply (updateQuickKeysTab_after_setQuickKey (λ _, mret ())
           (shortcut_7 "Reading") one_shortcut 6%positive
           (<["extractKey" := VStr "x"]> new_defaults) 3%positive
           {[ "Ctrl+Alt+7" := VRef 7%positive ]}).
  - apply answers_nothing.
  - split; vm_compute; reflexivity.
  - vm_compute; reflexivity.
  - vm_compute; reflexivity.
  - discriminate.
  - reflexivity.
Defined.

(* ===================================================================== *)
(** ** The highlighting tab *)
(* ===================================================================== *)

(** The arguments are the current texts of [targetComboBox],
    [bgColorComboBox] and [textColorComboBox]. *)
Definition saveHighlightSettings (target bgColor textColor : string) : M unit :=
  s ← attr settings;
  highlightKey ← py_getitem s "highlightKey";
  if is_str target highlightKey then
    assign "highlightBgColor" (VStr bgColor);;
    assign "highlightTextColor" (VStr textColor)
  else
    s ← attr settings;
    extractKey ← py_getitem s "extractKey";
    if is_str target extractKey then
      assign "extractBgColor" (VStr bgColor);;
      assign "extractTextColor" (VStr textColor)
    else
      s ← attr settings;
      quickKeys ← py_getitem s "quickKeys";
      quickKey ← py_getitem quickKeys target;
      py_setitem quickKey "bgColor" (VStr bgColor);;
      s ← attr settings;
      quickKeys ← py_getitem s "quickKeys";
      quickKey ← py_getitem quickKeys target;
      py_setitem quickKey "textColor" (VStr textColor).

Definition updateHighlightingTab (target : string) : M unit :=
  s ← attr settings;
  highlightKey ← py_getitem s "highlightKey";
  if is_str target highlightKey then
    s ← attr settings;
    v ← py_getitem s "highlightBgColor";
    emit (SetComboBoxItem "bgColorComboBox" v);;
    s ← attr settings;
    v ← py_getitem s "highlightTextColor";
    emit (SetComboBoxItem "textColorComboBox" v)
  else
    s ← attr settings;
    extractKey ← py_getitem s "extractKey";
    if is_str target extractKey then
      s ← attr settings;
      v ← py_getitem s "extractBgColor";
      emit (SetComboBoxItem "bgColorComboBox" v);;
      s ← attr settings;
      v ← py_getitem s "extractTextColor";
      emit (SetComboBoxItem "textColorComboBox" v)
    else
      s ← attr settings;
      quickKeys ← py_getitem s "quickKeys";
      quickKey ← py_getitem quickKeys target;
      v ← py_getitem quickKey "bgColor";
      emit (SetComboBoxItem "bgColorComboBox" v);;
      s ← attr settings;
      quickKeys ← py_getitem s "quickKeys";
      quickKey ← py_getitem quickKeys target;
      v ← py_getitem quickKey "textColor";
      emit (SetComboBoxItem "textColorComboBox" v).

(** The two host calls that show a pair of colours. *)
Definition shows (bg tx : value) : list event :=
  [SetComboBoxItem "bgColorComboBox" bg; SetComboBoxItem "textColorComboBox" tx].

Lemma run_setting st ls s k v {B} (f : value → M B) :
  settings_at st ls s → s !! k = Some v →
  (s0 ← attr settings; x ← py_getitem s0 k; f x) st = f v st.
Proof.
  intros [Hs Hh] Hk.
  rewrite (run_bind_ok _ _ _ _ _ (run_attr_settings _ _ Hs)).
  by rewrite (run_bind_ok _ _ _ _ _ (run_getitem_dict _ _ _ _ _ Hh Hk)).
Qed.

Lemma show_pair st ls s kb kt bg tx :
  settings_at st ls s → s !! kb = Some bg → s !! kt = Some tx →
  (s0 ← attr settings; v ← py_getitem s0 kb;
   emit (SetComboBoxItem "bgColorComboBox" v);;
   s0 ← attr settings; v ← py_getitem s0 kt;
   emit (SetComboBoxItem "textColorComboBox" v)) st
  = (Ok (), more_events (shows bg tx) st).
Proof.
  intros Hs Hb Ht. rewrite (run_setting st ls s kb bg _ Hs Hb).
  rewrite run_bind. unfold emit at 1, modify at 1.
  change (add_event ?e st) with (more_events [e] st).
  rewrite (run_setting (more_events _ st) ls s kt tx _ Hs Ht).
  unfold emit, modify. change (add_event ?e ?s) with (more_events [e] s).
  by rewrite more_events_app.
Qed.

Lemma save_pair st ls s kb kt bg tx :
  settings_at st ls s →
  (assign kb bg;; assign kt tx) st
  = (Ok (), put ls (<[kt := tx]> (<[kb := bg]> s)) st).
Proof.
  intros Hs. rewrite (run_bind_ok _ _ _ _ _ (run_assign _ _ _ kb bg Hs)).
  rewrite (run_assign _ ls _ kt tx (settings_at_put _ _ _ (proj1 Hs))).
  by rewrite put_put.
Qed.

(** X14. Colours of the two basic keys: when the target is the highlight
    key, [saveHighlightSettings] writes the highlight colours and nothing
    else, also when the extract key is the same character; otherwise,
    when it is the extract key, it writes the extract colours.  Either
    way [updateHighlightingTab] on the same target then shows the colours
    just saved. *)
Theorem highlight_colours_round_trip target bg tx st ls s hk ek :
  settings_at st ls s →
  s !! "highlightKey" = Some hk → s !! "extractKey" = Some ek →
  (is_str target hk = true →
   let st' := put ls (<["highlightTextColor" := VStr tx]>
                        (<["highlightBgColor" := VStr bg]> s)) st in
   saveHighlightSettings target bg tx st = (Ok (), st') ∧
   updateHighlightingTab target st'
   = (Ok (), more_events (shows (VStr bg) (VStr tx)) st')) ∧
  (is_str target hk = false → is_str target ek = true →
   let st' := put ls (<["extractTextColor" := VStr tx]>
                        (<["extractBgColor" := VStr bg]> s)) st in
   saveHighlightSettings target bg tx st = (Ok (), st') ∧
   updateHighlightingTab target st'
   = (Ok (), more_events (shows (VStr bg) (VStr tx)) st')).
Proof.
  intros Hs Hhk Hek. split.
  - intros Ht st'.
    assert (settings_at st' ls (<["highlightTextColor" := VStr tx]>
                                  (<["highlightBgColor" := VStr bg]> s))) as Hs'
      by (apply settings_at_put, Hs).
    split.
    + unfold saveHighlightSettings. rewrite (run_setting st ls s _ hk _ Hs Hhk).
      rewrite Ht. by apply save_pair.
    + unfold updateHighlightingTab.
      rewrite (run_setting st' ls _ "highlightKey" hk _ Hs')
        by (by rewrite !lookup_insert_ne).
      rewrite Ht. apply (show_pair st' ls _ _ _ _ _ Hs').
      * rewrite lookup_insert_ne by done. apply lookup_insert_eq.
      * apply lookup_insert_eq.
  - intros Hnot Ht st'.
    assert (settings_at st' ls (<["extractTextColor" := VStr tx]>
                                  (<["extractBgColor" := VStr bg]> s))) as Hs'
      by (apply settings_at_put, Hs).
    split.
    + unfold saveHighlightSettings. rewrite (run_setting st ls s _ hk _ Hs Hhk).
      rewrite Hnot. rewrite (run_setting st ls s _ ek _ Hs Hek).
      rewrite Ht. by apply save_pair.
    + unfold updateHighlightingTab.
      rewrite (run_setting st' ls _ "highlightKey" hk _ Hs')
        by (by rewrite !lookup_insert_ne).
      rewrite Hnot.
      rewrite (run_setting st' ls _ "extractKey" ek _ Hs')
        by (by rewrite !lookup_insert_ne).
      rewrite Ht. apply (show_pair st' ls _ _ _ _ _ Hs').
      * rewrite lookup_insert_ne by done. apply lookup_insert_eq.
      * apply lookup_insert_eq.
Qed.

Lemma highlight_colours_round_trip_witness :
  (let st' := put 6%positive (<["highlightTextColor" := VStr "White"]>
                                (<["highlightBgColor" := VStr "Blue"]> new_defaults))
                  loaded_manager in
   saveHighlightSettings "h" "Blue" "White" loaded_manager = (Ok (), st') ∧
   updateHighlightingTab "h" st'
   = (Ok (), more_events (shows (VStr "Blue") (VStr "White")) st')) ∧
  (let st' := put 6%positive (<["extractTextColor" := VStr "White"]>
                                (<["extractBgColor" := VStr "Blue"]> new_defaults))
                  loaded_manager in
   saveHighlightSettings "x" "Blue" "White" loaded_manager = (Ok (), st') ∧
   updateHighlightingTab "x" st'
   = (Ok (), more_events (shows (VStr "Blue") (VStr "White")) st')).
Proof.
  split.
  - apply (proj1 (highlight_colours_round_trip "h" "Blue" "White" loaded_manager
                    6%positive new_defaults (VStr "h") (VStr "x")
                    (conj eq_refl eq_refl) eq_refl eq_refl)).
    reflexivity.
  - apply (proj2 (highlight_colours_round_trip "x" "Blue" "White" loaded_manager
                    6%positive new_defaults (VStr "h") (VStr "x")
                    (conj eq_refl eq_refl) eq_refl eq_refl)).
    + reflexivity.
    + reflexivity.
Defined.

Section quick_key_colours.

Variables (target bg tx : string) (st : state) (ls lq le : loc).
Variables (s q e : gmap string value) (hk ek : value).
Hypothesis Hs : settings_at st ls s.
Hypothesis Hhk : s !! "highlightKey" = Some hk.
Hypothesis Hek : s !! "extractKey" = Some ek.
Hypothesis Hnh : is_str target hk = false.
Hypothesis Hne : is_str target ek = false.
Hypothesis Hq : s !! "quickKeys" = Some (VRef lq).
Hypothesis Hlq : heap st !! lq = Some (ODict q).

Lemma reach_entry {B} (f : value → M B) st0 v :
  settings_at st0 ls s → heap st0 !! lq = Some (ODict q) →
  q !! target = Some v →
  (s0 ← attr settings; quickKeys ← py_getitem s0 "quickKeys";
   quickKey ← py_getitem quickKeys target; f quickKey) st0 = f v st0.
Proof.
  intros Hs0 Hlq0 Hv. rewrite (run_setting st0 ls s _ _ _ Hs0 Hq).
  by rewrite (run_bind_ok _ _ _ _ _ (run_getitem_dict _ _ _ _ _ Hlq0 Hv)).
Qed.

Lemma saveHighlightSettings_entry :
  q !! target = Some (VRef le) → heap st !! le = Some (ODict e) →
  le ≠ ls → le ≠ lq →
  let st' := put le (<["textColor" := VStr tx]> (<["bgColor" := VStr bg]> e)) st in
  saveHighlightSettings target bg tx st = (Ok (), st') ∧
  updateHighlightingTab target st'
  = (Ok (), more_events (shows (VStr bg) (VStr tx)) st').
Proof.
  intros Hv Hle Hls Hlql st'.
  set (st1 := put le (<["bgColor" := VStr bg]> e) st).
  assert (∀ e', settings_at (put le e' st) ls s) as Hs1.
  { intros e'. destruct Hs as [Ha Hh]. split; [exact Ha|].
    cbn [heap put set_heap]. by rewrite lookup_insert_ne. }
  assert (∀ e', heap (put le e' st) !! lq = Some (ODict q)) as Hlq1.
  { intros e'. cbn [heap put set_heap]. by rewrite lookup_insert_ne. }
  split.
  - unfold saveHighlightSettings. rewrite (run_setting st ls s _ hk _ Hs Hhk), Hnh.
    rewrite (run_setting st ls s _ ek _ Hs Hek), Hne.
    rewrite (reach_entry _ st (VRef le) Hs Hlq Hv).
    rewrite (run_bind_ok _ _ _ _ _ (run_setitem_dict _ _ _ "bgColor" _ Hle)).
    fold st1. rewrite (reach_entry _ st1 (VRef le) (Hs1 _) (Hlq1 _) Hv).
    rewrite (run_setitem_dict st1 le (<["bgColor" := VStr bg]> e))
      by apply lookup_insert_eq.
    unfold st1. by rewrite put_put.
  - unfold updateHighlightingTab.
    rewrite (run_setting st' ls s _ hk _ (Hs1 _) Hhk), Hnh.
    rewrite (run_setting st' ls s _ ek _ (Hs1 _) Hek), Hne.
    rewrite (reach_entry _ st' (VRef le) (Hs1 _) (Hlq1 _) Hv).
    assert (heap st' !! le
            = Some (ODict (<["textColor" := VStr tx]> (<["bgColor" := VStr bg]> e))))
      as Hle' by apply lookup_insert_eq.
    rewrite (run_bind_ok _ _ st' _ _
               (run_getitem_dict st' le _ "bgColor" (VStr bg) Hle'
                  ltac:(by rewrite lookup_insert_ne, lookup_insert_eq))).
    rewrite run_bind. unfold emit at 1, modify at 1.
    change (add_event ?x st') with (more_events [x] st').
    rewrite (reach_entry _ (more_events _ st') (VRef le) (Hs1 _) (Hlq1 _) Hv).
    rewrite (run_bind_ok _ _ (more_events _ st') _ _
               (run_getitem_dict (more_events _ st') le _ "textColor" (VStr tx) Hle'
                  ltac:(by rewrite lookup_insert_eq))).
    unfold emit, modify. change (add_event ?x ?y) with (more_events [x] y).
    by rewrite more_events_app.
Qed.

Lemma saveHighlightSettings_unknown :
  q !! target = None →
  saveHighlightSettings target bg tx st = (Raise (KeyError target), st) ∧
  updateHighlightingTab target st = (Raise (KeyError target), st).
Proof.
  intros Hnone. split.
  - unfold saveHighlightSettings. rewrite (run_setting st ls s _ hk _ Hs Hhk), Hnh.
    rewrite (run_setting st ls s _ ek _ Hs Hek), Hne.
    rewrite (run_setting st ls s _ _ _ Hs Hq).
    rewrite run_bind. unfold py_getitem. by rewrite Hlq, Hnone.
  - unfold updateHighlightingTab. rewrite (run_setting st ls s _ hk _ Hs Hhk), Hnh.
    rewrite (run_setting st ls s _ ek _ Hs Hek), Hne.
    rewrite (run_setting st ls s _ _ _ Hs Hq).
    rewrite run_bind. unfold py_getitem. by rewrite Hlq, Hnone.
Qed.

End quick_key_colours.

(** X15. Colours of a shortcut: when the target is neither basic key but a
    key of [quickKeys] bound to a dict, [saveHighlightSettings] rewrites
    [bgColor] and [textColor] inside that entry, in place, leaving its
    other fields and everything else alone, and [updateHighlightingTab]
    then shows the two colours. *)
Theorem shortcut_colours_round_trip target bg tx st ls lq le s q e hk ek :
  settings_at st ls s →
  s !! "highlightKey" = Some hk → s !! "extractKey" = Some ek →
  is_str target hk = false → is_str target ek = false →
  s !! "quickKeys" = Some (VRef lq) → heap st !! lq = Some (ODict q) →
  q !! target = Some (VRef le) → heap st !! le = Some (ODict e) →
  le ≠ ls → le ≠ lq →
  let st' := put le (<["textColor" := VStr tx]> (<["bgColor" := VStr bg]> e)) st in
  saveHighlightSettings target bg tx st = (Ok (), st') ∧
  updateHighlightingTab target st'
  = (Ok (), more_events (shows (VStr bg) (VStr tx)) st').
Proof. intros. by eapply saveHighlightSettings_entry. Qed.

Lemma shortcut_colours_round_trip_witness :
  let st' := put 7%positive
               (<["textColor" := VStr "White"]>
                  (<["bgColor" := VStr "Blue"]> (quickKey_of (shortcut_7 "Default"))))
               one_shortcut in
  saveHighlightSettings "Ctrl+Alt+7" "Blue" "White" one_shortcut = (Ok (), st') ∧
  updateHighlightingTab "Ctrl+Alt+7" st'
  = (Ok (), more_events (shows (VStr "Blue") (VStr "White")) st').
Proof.
  apply (shortcut_colours_round_trip "Ctrl+Alt+7" "Blue" "White" one_shortcut
           6%positive 3%positive 7%positive
           (<["extractKey" := VStr "x"]> new_defaults)
           {[ "Ctrl+Alt+7" := VRef 7%positive ]}
           (quickKey_of (shortcut_7 "Default")) (VStr "h") (VStr "x")).
  - split; vm_compute; reflexivity.
  - vm_compute; reflexivity.
  - vm_compute; reflexivity.
  - reflexivity.
  - reflexivity.
  - vm_compute; reflexivity.
  - vm_compute; reflexivity.
  - vm_compute; reflexivity.
  - vm_compute; reflexivity.
  - discriminate.
  - discriminate.
Defined.

(** X16. A target that is neither basic key nor a key of [quickKeys]:
    [saveHighlightSettings] and [updateHighlightingTab] both raise KeyError
    on it and change nothing. *)
Theorem highlight_unknown_target target bg tx st ls lq s q hk ek :
  settings_at st ls s →
  s !! "highlightKey" = Some hk → s !! "extractKey" = Some ek →
  is_str target hk = false → is_str target ek = false →
  s !! "quickKeys" = Some (VRef lq) → heap st !! lq = Some (ODict q) →
  q !! target = None →
  saveHighlightSettings target bg tx st = (Raise (KeyError target), st) ∧
  updateHighlightingTab target st = (Raise (KeyError target), st).
Proof. intros. by eapply saveHighlightSettings_unknown. Qed.

Lemma highlight_unknown_target_witness :
  saveHighlightSettings "H" "Blue" "White" one_shortcut
    = (Raise (KeyError "H"), one_shortcut) ∧
  updateHighlightingTab "H" one_shortcut = (Raise (KeyError "H"), one_shortcut).
Proof.
  apply (highlight_unknown_target "H" "Blue" "White" one_shortcut
           6%positive 3%positive (<["extractKey" := VStr "x"]> new_defaults)
           {[ "Ctrl+Alt+7" := VRef 7%positive ]} (VStr "h") (VStr "x")).
  - split; vm_compute; reflexivity.
  - vm_compute; reflexivity.
  - vm_compute; reflexivity.
  - reflexivity.
  - reflexivity.
  - vm_compute; reflexivity.
  - vm_compute; reflexivity.
  - vm_compute; reflexivity.
Defined.

(* ===================================================================== *)
(** ** The options dialog, beyond its numeric fields *)
(* ===================================================================== *)

(** The four numeric texts of the dialog all parse. *)
Definition numbers_parse (w : Dialog) : bool :=
  match parse_int (soonValueEditBox w), parse_int (laterValueEditBox w),
        parse_int (extractValueEditBox w), parse_int (widthEditBox w) with
  | Some _, Some _, Some _, Some _ => true
  | _, _, _, _ => false
  end.

(** The settings [showDialog] assigns to, in the order of the source. *)
Definition dialog_keys : list string :=
  ["zoomStep"; "generalZoom"; "lineScrollFactor"; "pageScrollFactor";
   "editExtract"; "editSource"; "plainText"; "copyTitle"; "extractSchedule";
   "soonRandom"; "laterRandom"; "extractRandom"; "extractDeck";
   "soonValue"; "laterValue"; "extractValue"; "maxWidth";
   "soonMethod"; "laterMethod"; "extractMethod"; "limitWidth"; "limitWidthAll"].

(** The document [showDialog] leaves of the document [s]. *)
Definition accepted (w : Dialog) (s : gmap string value) : gmap string value :=
  after_numbers w (saved_numbers w (before_numbers w s)).1.

(** The host calls of [showDialog]. *)
Definition dialog_events (w : Dialog) : list event :=
  (if numbers_parse w then [] else [ShowWarning warning]) ++ [ResetZoom].

Lemma saved_numbers_warns w s : (saved_numbers w s).2 = negb (numbers_parse w).
Proof.
  unfold saved_numbers, numbers_parse.
  destruct (parse_int (soonValueEditBox w)); [|done].
  destruct (parse_int (laterValueEditBox w)); [|done].
  destruct (parse_int (extractValueEditBox w)); [|done].
  by destruct (parse_int (widthEditBox w)).
Qed.

Lemma showDialog_state w st ls s :
  settings_at st ls s →
  showDialog w st
  = (Ok (), put ls (accepted w s) (more_events (dialog_events w) st)).
Proof.
  intros Hs. rewrite (showDialog_run w st ls s Hs). fold (accepted w s).
  rewrite saved_numbers_warns. unfold dialog_events, warned.
  destruct (numbers_parse w); cbn [negb]; [reflexivity|].
  unfold add_event, more_events. cbn [heap defaults settings settingsChanged events].
  by rewrite <- app_assoc.
Qed.

Lemma saved_numbers_other w s k :
  k ∉ ["soonValue"; "laterValue"; "extractValue"; "maxWidth"] →
  (saved_numbers w s).1 !! k = s !! k.
Proof.
  rewrite !not_elem_of_cons. intros (? & ? & ? & ? & _). unfold saved_numbers.
  destruct (parse_int (soonValueEditBox w)); [|done].
  destruct (parse_int (laterValueEditBox w));
    [|cbn [fst]; by rewrite !lookup_insert_ne].
  destruct (parse_int (extractValueEditBox w));
    [|cbn [fst]; by rewrite !lookup_insert_ne].
  destruct (parse_int (widthEditBox w)); cbn [fst]; by rewrite !lookup_insert_ne.
Qed.

Lemma accepted_other w s k : k ∉ dialog_keys → accepted w s !! k = s !! k.
Proof.
  unfold dialog_keys. rewrite !not_elem_of_cons. intros H. destruct_and!.
  unfold accepted, after_numbers. rewrite !lookup_insert_ne by done.
  rewrite saved_numbers_other by (rewrite !not_elem_of_cons; done).
  unfold before_numbers. by rewrite !lookup_insert_ne.
Qed.

Lemma saved_numbers_keeps w s k :
  is_Some (s !! k) → is_Some ((saved_numbers w s).1 !! k).
Proof.
  intros H. unfold saved_numbers.
  repeat (case_match; cbn [fst]; rewrite ?lookup_insert_is_Some'; auto 10).
Qed.

Lemma accepted_keeps w s k : is_Some (s !! k) → is_Some (accepted w s !! k).
Proof.
  intros H. unfold accepted, after_numbers.
  rewrite !lookup_insert_is_Some'. do 5 right.
  apply saved_numbers_keeps. unfold before_numbers.
  rewrite !lookup_insert_is_Some'. auto 20.
Qed.


(** A dialog closed with every numeric field filled in. *)
Definition all_typed : Dialog :=
  {| zoomStepSpinBox := 10; generalZoomSpinBox := 100;
     lineStepSpinBox := 5; pageStepSpinBox := 50;
     editExtractButton := true; editSourceCheckBox := false;
     plainTextCheckBox := false; copyTitleCheckBox := true;
     extractScheduleCheckBox := true; soonRandomCheckBox := false;
     laterRandomCheckBox := true; extractRandomCheckBox := true;
     extractDeckComboBox := "Extracts";
     soonValueEditBox := "5"; laterValueEditBox := " 40 ";
     extractValueEditBox := "30"; widthEditBox := "800";
     soonPercentButton := false; laterPercentButton := true;
     extractPercentButton := true;
     limitAllCardsButton := true; limitIrCardsButton := true |}.



(** X18. What [showDialog] leaves alone: a setting it does not assign to
    (the keys, the colours, [quickKeys], ...) keeps its value, no setting
    is removed, every object other than the document is untouched, and
    the attributes of the manager, the flag included, stay as they are. *)
Theorem showDialog_frame w st ls s :
  settings_at st ls s →
  let st' := (showDialog w st).2 in
  (∀ k, k ∉ dialog_keys → setting st' k = setting st k) ∧
  (∀ k, is_Some (setting st k) → is_Some (setting st' k)) ∧
  (∀ l, l ≠ ls → heap st' !! l = heap st !! l) ∧
  settings st' = settings st ∧ defaults st' = defaults st ∧
  settingsChanged st' = settingsChanged st.
Proof.
  intros Hs st'. subst st'. rewrite (showDialog_state w st ls s Hs). cbn [snd].
  assert (settings (more_events (dialog_events w) st) = Some (VRef ls)) as Hs'
    by apply Hs.
  split; [|split; [|split; [|done]]].
  - intros k Hk. rewrite (setting_put _ _ _ _ Hs'), (setting_at st ls s _ Hs).
    by apply accepted_other.
  - intros k. rewrite (setting_put _ _ _ _ Hs'), (setting_at st ls s _ Hs).
    apply accepted_keeps.
  - intros l Hl. cbn [heap put set_heap more_events].
    by rewrite lookup_insert_ne.
Qed.

Lemma showDialog_frame_witness :
  let st' := (showDialog all_typed one_shortcut).2 in
  (∀ k, k ∉ dialog_keys → setting st' k = setting one_shortcut k) ∧
  (∀ k, is_Some (setting one_shortcut k) → is_Some (setting st' k)) ∧
  (∀ l, l ≠ 6%positive → heap st' !! l = heap one_shortcut !! l) ∧
  settings st' = settings one_shortcut ∧ defaults st' = defaults one_shortcut ∧
  settingsChanged st' = settingsChanged one_shortcut.
Proof.
  apply (showDialog_frame all_typed one_shortcut 6%positive
           (<["extractKey" := VStr "x"]> new_defaults)).
  split; vm_compute; reflexivity.
Defined.

Lemma dialog_keys_default version url badTags feedLog quickKeys scroll zoom :
  Forall (λ k, k ∈ (default_items version url badTags feedLog quickKeys
                      scroll zoom).*1) dialog_keys.
Proof. apply (bool_decide_unpack _). vm_compute. exact I. Qed.

(** X19. [showDialog] keeps the shape of a reconciled document: every
    setting it assigns to is a key of the default schema of [__init__],
    so a document that has all the keys of the schema has the same keys
    afterwards, no more and no fewer. *)
Theorem showDialog_keeps_schema version url badTags feedLog quickKeys scroll zoom
    w st ls s :
  settings_at st ls s →
  dom (list_to_map (default_items version url badTags feedLog quickKeys
                      scroll zoom) : gmap string value) ⊆ dom s →
  ∃ s', settings_at (showDialog w st).2 ls s' ∧ dom s' = dom s.
Proof.
  intros Hs Hdom. rewrite (showDialog_state w st ls s Hs). cbn [snd].
  exists (accepted w s). split.
  { apply settings_at_put, Hs. }
  apply set_eq. intros k. rewrite !elem_of_dom. split; [|apply accepted_keeps].
  destruct (decide (k ∈ dialog_keys)) as [Hk|Hk].
  - intros _. apply elem_of_dom, Hdom. rewrite dom_list_to_map_L.
    apply elem_of_list_to_set.
    pose proof (dialog_keys_default version url badTags feedLog quickKeys
                  scroll zoom) as Hall.
    rewrite Forall_forall in Hall. by apply Hall.
  - by rewrite accepted_other.
Qed.

Lemma showDialog_keeps_schema_witness :
  ∃ s', settings_at (showDialog half_typed loaded_manager).2 6%positive s' ∧
        dom s' = dom new_defaults.
Proof.
  apply (showDialog_keeps_schema "4.0.0"
           "https://github.com/luoliyan/incremental-reading"
           (VRef 1%positive) (VRef 2%positive) (VRef 3%positive)
           (VRef 4%positive) (VRef 5%positive)
           half_typed loaded_manager 6%positive new_defaults).
  - split; vm_compute; reflexivity.
  - reflexivity.
Defined.







(* ===================================================================== *)
(** ** The three basic keys *)
(* ===================================================================== *)

(** The host calls of [setDefaultKeys] for the stored keys [e], [h], [r]. *)
Definition restored (e h r : value) : list event :=
  [SetComboBoxItem "extractKeyComboBox" e;
   SetComboBoxItem "highlightKeyComboBox" h;
   SetComboBoxItem "removeKeyComboBox" r].

Lemma setDefaultKeys_run st ls s e h r :
  settings_at st ls s →
  s !! "extractKey" = Some e → s !! "highlightKey" = Some h →
  s !! "removeKey" = Some r →
  setDefaultKeys st = (Ok (), more_events (restored e h r) st).
Proof.
  intros Hs He Hh Hr. unfold setDefaultKeys.
  rewrite (run_setting st ls s _ e _ Hs He).
  rewrite run_bind. unfold emit at 1, modify at 1.
  change (add_event ?x st) with (more_events [x] st).
  rewrite (run_setting (more_events _ st) ls s _ h _ Hs Hh).
  rewrite run_bind. unfold emit at 1, modify at 1.
  change (add_event ?x (more_events ?l st)) with (more_events [x] (more_events l st)).
  rewrite more_events_app.
  rewrite (run_setting (more_events _ st) ls s _ r _ Hs Hr).
  unfold emit, modify. change (add_event ?x ?y) with (more_events [x] y).
  by rewrite more_events_app.
Qed.

Lemma saveKeys_conflict_run e h r st ls s ve vh vr :
  settings_at st ls s →
  s !! "extractKey" = Some ve → s !! "highlightKey" = Some vh →
  s !! "removeKey" = Some vr →
  ¬ (e ≠ h ∧ e ≠ r ∧ h ≠ r) →
  saveKeys e h r st
  = (Ok (), more_events (ShowInfo conflict :: restored ve vh vr) st).
Proof.
  intros Hs He Hh Hr Hconf. unfold saveKeys.
  rewrite bool_decide_eq_true_2 by (by rewrite conflict_iff).
  rewrite run_bind. unfold showInfo, emit at 1, modify at 1.
  change (add_event ?x st) with (more_events [x] st).
  rewrite (setDefaultKeys_run (more_events _ st) ls s ve vh vr Hs He Hh Hr).
  by rewrite more_events_app.
Qed.

(** X21. A conflict among the selected keys: when two of the three texts
    coincide, [saveKeys] tells the user and then puts the three combo
    boxes back to the stored keys, in the order extract, highlight,
    remove; these four host calls are all it does. *)
Theorem saveKeys_conflict e h r st ls s ve vh vr :
  settings_at st ls s →
  s !! "extractKey" = Some ve → s !! "highlightKey" = Some vh →
  s !! "removeKey" = Some vr →
  ¬ (e ≠ h ∧ e ≠ r ∧ h ≠ r) →
  saveKeys e h r st
  = (Ok (), more_events [ShowInfo conflict;
                          SetComboBoxItem "extractKeyComboBox" ve;
                          SetComboBoxItem "highlightKeyComboBox" vh;
                          SetComboBoxItem "removeKeyComboBox" vr] st).
Proof. intros. by eapply saveKeys_conflict_run. Qed.

Lemma saveKeys_conflict_witness :
  saveKeys "A" "B" "A" loaded_manager
  = (Ok (), more_events [ShowInfo conflict;
                          SetComboBoxItem "extractKeyComboBox" (VStr "x");
                          SetComboBoxItem "highlightKeyComboBox" (VStr "h");
                          SetComboBoxItem "removeKeyComboBox" (VStr "z")]
              loaded_manager).
Proof.
  apply (saveKeys_conflict "A" "B" "A" loaded_manager 6%positive new_defaults).
  - split; vm_compute; reflexivity.
  - reflexivity.
  - reflexivity.
  - reflexivity.
  - intros (_ & Hne & _). by apply Hne.
Defined.

(** The stored basic keys are three different strings. *)
Definition distinct_keys (st : state) : Prop :=
  ∃ e h r,
    setting st "extractKey" = Some (VStr e) ∧
    setting st "highlightKey" = Some (VStr h) ∧
    setting st "removeKey" = Some (VStr r) ∧
    e ≠ h ∧ e ≠ r ∧ h ≠ r.

Lemma lower_keys_inj :
  Forall (λ x, Forall (λ y, lower x = lower y → x = y) keys) keys.
Proof. apply (bool_decide_unpack _). vm_compute. exact I. Qed.

Lemma lower_keys_ne x y : x ∈ keys → y ∈ keys → x ≠ y → lower x ≠ lower y.
Proof.
  intros Hx Hy Hne Heq. apply Hne.
  pose proof lower_keys_inj as H. rewrite Forall_forall in H.
  specialize (H x Hx). rewrite Forall_forall in H. by apply H.
Qed.

(** X22. The basic keys stay distinct: the three combo boxes offer the
    items of [keys], on which lowercasing is one to one; so when the
    stored keys are three different strings, they still are after
    [saveKeys], whether it stored the selection or rejected it. *)
Theorem saveKeys_keeps_distinct e h r st ls s :
  settings_at st ls s →
  e ∈ keys → h ∈ keys → r ∈ keys →
  distinct_keys st →
  ∃ st', saveKeys e h r st = (Ok (), st') ∧ distinct_keys st'.
Proof.
  intros Hs He Hh Hr (e0 & h0 & r0 & He0 & Hh0 & Hr0 & Hd).
  rewrite (setting_at st ls s _ Hs) in He0.
  rewrite (setting_at st ls s _ Hs) in Hh0.
  rewrite (setting_at st ls s _ Hs) in Hr0.
  destruct (decide (e ≠ h ∧ e ≠ r ∧ h ≠ r)) as [(Heh & Her & Hhr)|Hconf].
  - eexists. split.
    + unfold saveKeys.
      rewrite bool_decide_eq_false_2 by (rewrite conflict_iff; tauto).
      rewrite (run_bind_ok _ _ _ _ _ (run_assign _ _ _ "extractKey" _ Hs)).
      rewrite (run_bind_ok _ _ _ _ _
                 (run_assign _ _ _ "highlightKey" _
                    (settings_at_put _ _ _ (proj1 Hs)))).
      rewrite put_put.
      rewrite (run_assign _ _ _ "removeKey" _ (settings_at_put _ _ _ (proj1 Hs))).
      by rewrite put_put.
    + exists (lower e), (lower h), (lower r).
      rewrite !(setting_put _ _ _ _ (proj1 Hs)).
      repeat (rewrite lookup_insert_eq
              || rewrite lookup_insert_ne by (intros ?; discriminate)).
      do 3 (split; [reflexivity|]).
      split; [|split]; by apply lower_keys_ne.
  - eexists. split.
    + by apply (saveKeys_conflict_run e h r st ls s _ _ _ Hs He0 Hh0 Hr0).
    + exists e0, h0, r0.
      assert (settings_at (more_events (ShowInfo conflict
                                          :: restored (VStr e0) (VStr h0) (VStr r0)) st)
                ls s) as Hs' by apply Hs.
      by rewrite !(setting_at _ ls s _ Hs').
Qed.

Lemma saveKeys_keeps_distinct_witness :
  ∃ st', saveKeys "X" "Z" "H" loaded_manager = (Ok (), st') ∧ distinct_keys st'.
Proof.
  apply (saveKeys_keeps_distinct "X" "Z" "H" loaded_manager 6%positive
           new_defaults).
  - split; vm_compute; reflexivity.
  - apply (bool_decide_unpack _). vm_compute. exact I.
  - apply (bool_decide_unpack _). vm_compute. exact I.
  - apply (bool_decide_unpack _). vm_compute. exact I.
  - exists "x", "h", "z". repeat split; (reflexivity || discriminate).
Defined.

(* ===================================================================== *)
(** ** Loading a file of an older version *)
(* ===================================================================== *)

Lemma announce_changed st v :
  settingsChanged st = Some true → settings st = Some v →
  announce st = (Ok v, more_events [ShowInfo notice] st).
Proof.
  intros Hc Hs. unfold announce.
  rewrite (run_bind_ok (attr settingsChanged) _ st true st)
    by (unfold attr; by rewrite Hc).
  rewrite run_bind. unfold showInfo, emit, modify.
  unfold attr. cbn [settings add_event]. by rewrite Hs.
Qed.

(** X23. A file written before shortcuts existed: when the file holds a
    JSON object with no ["quickKeys"] member, [loadSettings] returns a
    document that is a new object, not the defaults; the document has
    every key of the defaults, its ["quickKeys"] is the very mapping of
    the defaults, the flag is raised, and the notice is shown, once, as
    the only host call of the load. *)
Theorem loadSettings_old_file st ld d lq q ms :
  defaults_at st ld d → d !! "quickKeys" = Some (VRef lq) →
  heap st !! lq = Some (ODict q) → entries_are_dicts (heap st) lq q →
  "quickKeys" ∉ ms.*1 →
  ∃ ls s' st',
    loadSettings (Parsed (JObj ms)) st = (Ok (VRef ls), st') ∧
    heap st !! ls = None ∧
    settings_at st' ls s' ∧
    dom d ⊆ dom s' ∧
    s' !! "quickKeys" = Some (VRef lq) ∧
    settingsChanged st' = Some true ∧
    events st' = (events st ++ [ShowInfo notice])%list.
Proof.
  intros Hd Hq Hlq Hent Hnot.
  destruct (loadSettings_object st ld d ms Hd)
    as (ls & sj & st1 & G1 & Hfresh & Hls & Hdom & E).
  set (st2 := reconciled ls sj d (set_settings (VRef ls) st1)) in *.
  assert (settings_at st2 ls (sj ∪ d)) as Hs2.
  { split; [reflexivity | apply lookup_insert_eq]. }
  assert (ls ≠ lq) as Hne by (intros ->; congruence).
  assert (∀ l o, heap st !! l = Some o → heap st2 !! l = Some o) as Hkeep.
  { intros l o Hl. unfold st2, reconciled. simpl.
    rewrite lookup_insert_ne by (intros ->; congruence).
    by apply (grown_lookup _ _ _ _ G1). }
  assert (sj !! "quickKeys" = None) as Hsj.
  { apply not_elem_of_dom. rewrite Hdom. by rewrite elem_of_list_to_set. }
  assert ((sj ∪ d) !! "quickKeys" = Some (VRef lq)) as Hdef.
  { by rewrite lookup_union, Hsj, Hq. }
  assert (entries_are_dicts (heap st2) lq q) as Hent2.
  { intros k v Hk.
    destruct (entry_is_dict_inv _ _ _ (Hent k v Hk)) as (le & e & -> & Hle & He).
    unfold entry_is_dict. rewrite bool_decide_eq_true_2 by done.
    by rewrite (Hkeep _ _ He). }
  assert (settingsChanged st2 = Some true) as Hc2.
  { unfold st2, reconciled. cbn [settingsChanged].
    rewrite decide_False; [done|]. intros Hsub.
    apply not_elem_of_dom in Hsj. apply Hsj, Hsub. apply elem_of_dom. by eexists. }
  assert (events st2 = events st) as He2.
  { destruct G1 as (_ & _ & _ & Ge & _). unfold st2, reconciled. cbn [events].
    exact Ge. }
  rewrite E, run_bind.
  rewrite (removeOutdatedQuickKeys_run st2 ls (sj ∪ d) lq q Hs2 Hdef
             (Hkeep _ _ Hlq) Hent2).
  rewrite Hc2.
  match goal with |- context [announce ?x] => set (st3 := x) end.
  assert (settingsChanged st3 = Some true) as Hc3.
  { unfold st3. cbn [settingsChanged]. by destruct (all_complete _ _). }
  rewrite (announce_changed st3 (VRef ls) Hc3) by reflexivity.
  exists ls, (sj ∪ d), (more_events [ShowInfo notice] st3).
  split; [reflexivity|]. split; [exact Hfresh|]. split.
  { split; [reflexivity|]. unfold st3. cbn [heap more_events].
    rewrite lookup_insert_ne by done. apply Hs2. }
  split; [rewrite dom_union_L; apply union_subseteq_r|].
  split; [exact Hdef|]. split; [exact Hc3|].
  unfold st3. cbn [events more_events]. by rewrite He2.
Qed.

Lemma loadSettings_old_file_witness :
  ∃ ls s' st',
    loadSettings (Parsed (JObj [("extractKey", JStr "q")])) new_manager
    = (Ok (VRef ls), st') ∧
    heap new_manager !! ls = None ∧
    settings_at st' ls s' ∧
    dom new_defaults ⊆ dom s' ∧
    s' !! "quickKeys" = Some (VRef 3%positive) ∧
    settingsChanged st' = Some true ∧
    events st' = (events new_manager ++ [ShowInfo notice])%list.
Proof.
  apply (loadSettings_old_file new_manager 6%positive new_defaults
           3%positive ∅ [("extractKey", JStr "q")]).
  - split; vm_compute; reflexivity.
  - vm_compute; reflexivity.
  - vm_compute; reflexivity.
  - intros k v Hk. by rewrite lookup_empty in Hk.
  - apply (bool_decide_unpack _). vm_compute. exact I.
Defined.
